(** * Struktos NestJS adapter: authorization guard, context decorators and
      request middleware, embedded shallowly and verified.

    The development follows the TypeScript sources:
    - [types]                      : [User], [ClaimRequirement], metadata keys;
    - [decorators/auth.decorator]  : [Roles], [RequireClaim], [RequireClaims],
                                     [Public], [Auth];
    - [decorators/context.decorator]: [Ctx], [TraceId], [CurrentUser], ...;
    - [guards/auth.guard]          : [StruktosAuthGuard.canActivate],
                                     [StruktosRolesGuard],
                                     [StruktosClaimsGuard];
    - [middleware]                 : [StruktosMiddleware.use];
    - [interceptors/context.interceptor]: the context, response and timing
                                     interceptors;
    - [module/struktos.module]     : the module registrations.

    JavaScript objects used as dictionaries are finite maps, [undefined] is
    [None], exceptions are an explicit outcome, and mutable request state is
    threaded through a small state-and-exception monad. *)

From Stdlib Require Import String Ascii List Bool ZArith Lia.
From stdpp Require Import base option gmap strings pretty.
Import ListNotations.

Local Open Scope string_scope.
Local Open Scope list_scope.

(** ** Data model ([types], [auth.guard]) *)

(** A claim held by a user: [{ type: string; value: string }]. *)
Record Claim := mkClaim {
  claim_type : string;
  claim_value : string
}.

(** [interface User] of [auth.guard]; [roles] and [claims] are optional. *)
Record User := mkUser {
  user_id : string;
  username : string;
  email : string;
  user_roles : option (list string);
  user_claims : option (list Claim)
}.

(** [interface ClaimRequirement { type: string; value?: string }]. *)
Record ClaimRequirement := mkRequirement {
  req_type : string;
  req_value : option string
}.

(** The metadata stored under [STRUKTOS_CLAIMS_KEY] has type
    [ClaimRequirement | ClaimRequirement[]]. *)
Inductive ClaimsMetadata :=
| SingleClaim (requirement : ClaimRequirement)
| ClaimArray (requirements : list ClaimRequirement).

(** Values that live in the context record ([NestJSContextData] has an
    index signature, so it is a string-keyed dictionary). *)
Inductive Value :=
| VString (s : string)
| VNumber (n : Z)
| VUser (u : User)
| VStrings (l : list string)
| VClaims (l : list Claim).

(** ** The ambient context *)

(** Modelled from the spec: [RequestContext] of the [@struktos/core]
    package, which is not part of these sources.  Section 4.1 gives its
    contract: a live key-value record with [get]/[set], and a monotonic
    [cancelled] flag driven by [cancel] and read by [isCancelled]. *)
Record RequestContext := mkContext {
  ctx_data : gmap string Value;
  ctx_cancelled : bool
}.

Definition ctx_get (key : string) (ctx : RequestContext) : option Value :=
  ctx_data ctx !! key.

Definition ctx_set (key : string) (v : Value) (ctx : RequestContext)
  : RequestContext :=
  {| ctx_data := <[key := v]> (ctx_data ctx);
     ctx_cancelled := ctx_cancelled ctx |}.

Definition ctx_cancel (ctx : RequestContext) : RequestContext :=
  {| ctx_data := ctx_data ctx; ctx_cancelled := true |}.

Definition isCancelled (ctx : RequestContext) : bool := ctx_cancelled ctx.

(** Typed reads of the fields declared by [NestJSContextData]. *)
Definition as_user (v : Value) : option User :=
  match v with VUser u => Some u | _ => None end.

Definition as_string (v : Value) : option string :=
  match v with VString s => Some s | _ => None end.

Definition as_number (v : Value) : option Z :=
  match v with VNumber n => Some n | _ => None end.

Definition as_strings (v : Value) : option (list string) :=
  match v with VStrings l => Some l | _ => None end.

(** JavaScript truthiness of an optional string: [undefined] and the empty
    string are falsy. *)
Definition truthy_string (s : option string) : bool :=
  match s with
  | Some s => negb (String.eqb s "")
  | None => false
  end.

(** ** Context decorators ([decorators/context.decorator]) *)

Module ContextDecorators.

(** What [@Ctx()] injects: the whole context or one of its values. *)
Inductive Injected :=
| WholeContext (ctx : RequestContext)
| FieldValue (v : Value).

(** Property access [user[data]] on a user object.  For the five fields
    that [User] declares the result is the field's value, [undefined]
    when an optional field is not set.  Any other name reaches an extra
    field of the object or a property inherited from its prototype
    ([toString], [constructor], ...): such an access is kept under its
    name and its value is not represented. *)
Inductive UserProperty :=
| DeclaredField (v : option Value)
| OtherProperty (name : string).

Definition user_property (u : User) (data : string) : UserProperty :=
  if String.eqb data "id" then DeclaredField (Some (VString (user_id u)))
  else if String.eqb data "username"
       then DeclaredField (Some (VString (username u)))
  else if String.eqb data "email"
       then DeclaredField (Some (VString (email u)))
  else if String.eqb data "roles"
       then DeclaredField (VStrings <$> user_roles u)
  else if String.eqb data "claims"
       then DeclaredField (VClaims <$> user_claims u)
  else OtherProperty data.

(** Every decorator factory starts with [RequestContext.current()]; the
    argument [current] is its result, [None] outside any scope. *)
Definition Ctx (data : option string) (current : option RequestContext)
  : option Injected :=
  match current with
  | None => None
  | Some context =>
      if truthy_string data
      then match data with
           | Some key => FieldValue <$> ctx_get key context
           | None => None
           end
      else Some (WholeContext context)
  end.

Definition TraceId (current : option RequestContext) : option string :=
  context ← current; v ← ctx_get "traceId" context; as_string v.

Inductive InjectedUser :=
| WholeUser (u : User)
| UserField (v : Value)
| UserOther (name : string).

Definition CurrentUser (data : option string)
    (current : option RequestContext) : option InjectedUser :=
  let user := context ← current; v ← ctx_get "user" context; as_user v in
  match user with
  | None => None
  | Some u =>
      if truthy_string data
      then match data with
           | Some key =>
               match user_property u key with
               | DeclaredField v => UserField <$> v
               | OtherProperty name => Some (UserOther name)
               end
           | None => None
           end
      else Some (WholeUser u)
  end.

Definition UserId (current : option RequestContext) : option string :=
  context ← current; v ← ctx_get "userId" context; as_string v.

Definition RequestTimestamp (current : option RequestContext) : option Z :=
  context ← current; v ← ctx_get "timestamp" context; as_number v.

(** [IsCancelled] captures the context found when the parameter is
    resolved and returns a thunk.  The thunk is called later, when the
    captured record may have been cancelled: [later] is the state of that
    same record at call time.  Without a captured context the thunk is
    [() => undefined ?? false]. *)
Definition IsCancelled (current : option RequestContext)
  : (RequestContext -> RequestContext) -> bool :=
  fun later =>
    match current with
    | Some context => isCancelled (later context)
    | None => false
    end.

End ContextDecorators.

(** ** Route metadata and the authorization decorators
       ([decorators/auth.decorator]) *)

(** The metadata a target (a handler or a controller class) carries under
    the three keys [STRUKTOS_PUBLIC_KEY], [STRUKTOS_ROLES_KEY] and
    [STRUKTOS_CLAIMS_KEY]; an absent key reads as [undefined]. *)
Record Metadata := mkMetadata {
  meta_public : option bool;
  meta_roles : option (list string);
  meta_claims : option ClaimsMetadata
}.

Definition no_metadata : Metadata :=
  {| meta_public := None; meta_roles := None; meta_claims := None |}.

(** [SetMetadata(key, value)], one setter per key. *)
Definition SetMetadata_public (value : bool) (target : Metadata) : Metadata :=
  {| meta_public := Some value;
     meta_roles := meta_roles target;
     meta_claims := meta_claims target |}.

Definition SetMetadata_roles (value : list string) (target : Metadata)
  : Metadata :=
  {| meta_public := meta_public target;
     meta_roles := Some value;
     meta_claims := meta_claims target |}.

Definition SetMetadata_claims (value : ClaimsMetadata) (target : Metadata)
  : Metadata :=
  {| meta_public := meta_public target;
     meta_roles := meta_roles target;
     meta_claims := Some value |}.

(** [interface AuthOptions]. *)
Record AuthOptions := mkAuthOptions {
  opt_roles : option (list string);
  opt_claim : option ClaimRequirement;
  opt_claims : option (list ClaimRequirement)
}.

(** The decorators exported by the package. *)
Inductive Decorator :=
| Roles (roles : list string)
| RequireClaim (type : string) (value : option string)
| RequireClaims (claims : list ClaimRequirement)
| Public
| Auth (options : AuthOptions)
| AdminOnly
| ModeratorOrAdmin.

Definition apply_Roles (roles : list string) : Metadata -> Metadata :=
  SetMetadata_roles roles.

Definition apply_RequireClaim (type : string) (value : option string)
  : Metadata -> Metadata :=
  let claim := {| req_type := type; req_value := value |} in
  SetMetadata_claims (SingleClaim claim).

Definition apply_RequireClaims (claims : list ClaimRequirement)
  : Metadata -> Metadata :=
  SetMetadata_claims (ClaimArray claims).

Definition apply_Public : Metadata -> Metadata := SetMetadata_public true.

(** [Auth] collects the decorators its options ask for and hands them to
    [applyDecorators], which runs them first to last. *)
Definition apply_Auth (options : AuthOptions) (target : Metadata) : Metadata :=
  let d1 := match opt_roles options with
            | Some roles =>
                if (0 <? length roles)%nat then [apply_Roles roles] else []
            | None => []
            end in
  let d2 := match opt_claim options with
            | Some claim =>
                [apply_RequireClaim (req_type claim) (req_value claim)]
            | None => []
            end in
  let d3 := match opt_claims options with
            | Some claims =>
                if (0 <? length claims)%nat
                then [apply_RequireClaims claims] else []
            | None => []
            end in
  fold_left (fun t d => d t) (d1 ++ d2 ++ d3) target.

Definition apply_decorator (d : Decorator) : Metadata -> Metadata :=
  match d with
  | Roles roles => apply_Roles roles
  | RequireClaim type value => apply_RequireClaim type value
  | RequireClaims claims => apply_RequireClaims claims
  | Public => apply_Public
  | Auth options => apply_Auth options
  | AdminOnly => apply_Roles ["Admin"]
  | ModeratorOrAdmin => apply_Roles ["Admin"; "Moderator"]
  end.

(** The metadata of a target decorated with [ds], listed as written, top
    to bottom.  Decorators run bottom-up, so the topmost one runs last. *)
Definition decorate (ds : list Decorator) : Metadata :=
  fold_right apply_decorator no_metadata ds.

(** Modelled from the spec: [Reflector.getAllAndOverride] of the hosting
    framework, which is not part of these sources.  Section 9 describes it
    as a closest-wins lookup: the value of the first target, in the order
    given, on which the key is defined. *)
Fixpoint getAllAndOverride {T : Type} (key : Metadata -> option T)
    (targets : list Metadata) : option T :=
  match targets with
  | [] => None
  | target :: rest =>
      match key target with
      | Some result => Some result
      | None => getAllAndOverride key rest
      end
  end.

(** ** Exceptions and the request state *)

Inductive Exception :=
| UnauthorizedException (message : string)
| ForbiddenException (message : string)
| ProviderError (message : string).

Inductive Outcome (A : Type) :=
| Returned (a : A)
| Thrown (e : Exception).
Arguments Returned {A} a.
Arguments Thrown {A} e.

(** The part of the HTTP request the guard touches. *)
Record Request := mkRequest {
  req_headers : option (gmap string string);
  req_user : option User
}.

(** What one guard invocation can read and change: the ambient context of
    the running continuation ([RequestContext.current()]), the request
    object, and the log of tokens handed to the authentication provider. *)
Record World := mkWorld {
  ambient : option RequestContext;
  request : Request;
  validateToken_calls : list string
}.

Definition M (A : Type) : Type := World -> Outcome A * World.

Definition ret {A} (a : A) : M A := fun w => (Returned a, w).

Definition bind {A B} (m : M A) (k : A -> M B) : M B :=
  fun w =>
    match m w with
    | (Returned a, w') => k a w'
    | (Thrown e, w') => (Thrown e, w')
    end.

Definition throw {A} (e : Exception) : M A := fun w => (Thrown e, w).

(** [try { m } catch { handler }]. *)
Definition try_catch {A} (m : M A) (handler : M A) : M A :=
  fun w =>
    match m w with
    | (Returned a, w') => (Returned a, w')
    | (Thrown _, w') => handler w'
    end.

(** The monad structure, so that stdpp's [x ← m; k] and [m ;; k] read as
    sequencing of guard statements. *)
#[global] Instance M_ret : MRet M := @ret.
#[global] Instance M_bind : MBind M := fun A B k m => bind m k.

(** [String.prototype.split] with a one-character separator. *)
Fixpoint split (sep : ascii) (s : string) : list string :=
  match s with
  | EmptyString => [EmptyString]
  | String c rest =>
      if Ascii.eqb c sep then EmptyString :: split sep rest
      else match split sep rest with
           | part :: parts => String c part :: parts
           | [] => [String c EmptyString]
           end
  end.

(** [Array.prototype.includes] on strings. *)
Definition includes (l : list string) (x : string) : bool :=
  existsb (String.eqb x) l.

(** [Array.prototype.join]. *)
Definition join (sep : string) (l : list string) : string :=
  String.concat sep l.

(** ** The guard ([guards/auth.guard], [StruktosAuthGuard]) *)

(** The optional authentication provider: [validateToken] resolves to a
    user, resolves to nothing, or rejects. *)
Record AuthService := mkAuthService {
  validateToken : string -> Outcome (option User)
}.

Record StruktosAuthGuard := mkGuard {
  authService : option AuthService
}.

(** The handler and the controller class of the route being activated,
    each with its metadata. *)
Record ExecutionContext := mkExecutionContext {
  getHandler : Metadata;
  getClass : Metadata
}.

Definition getRequest : M Request := fun w => (Returned (request w), w).

(** Calling the provider is logged in the state. *)
Definition call_validateToken (service : AuthService) (token : string)
  : M (option User) :=
  fun w =>
    (validateToken service token,
     {| ambient := ambient w;
        request := request w;
        validateToken_calls := validateToken_calls w ++ [token] |}).

Definition authenticateRequest (guard : StruktosAuthGuard) (request : Request)
  : M (option User) :=
  match authService guard with
  | None => mret None
  | Some service =>
      let authHeader := headers ← req_headers request;
                        headers !! "authorization" in
      if negb (truthy_string authHeader) then mret None
      else
        let parts := split " " (default "" authHeader) in
        if negb (length parts =? 2)%nat
           || negb (bool_decide (parts !! 0%nat = Some "Bearer"))
        then mret None
        else
          let token := default "" (parts !! 1%nat) in
          try_catch (user ← call_validateToken service token; mret user)
                    (mret None)
  end.

Definition getUserFromContext : M (option User) :=
  fun w =>
    (Returned (ctx ← ambient w; v ← ctx_get "user" ctx; as_user v), w).

Definition storeUserInContext (user : User) : M unit :=
  fun w =>
    let ctx := ambient w in
    let ctx' :=
      match ctx with
      | Some ctx =>
          let ctx := ctx_set "user" (VUser user) ctx in
          let ctx := ctx_set "userId" (VString (user_id user)) ctx in
          let ctx :=
            ctx_set "roles" (VStrings (default [] (user_roles user))) ctx in
          Some ctx
      | None => None
      end in
    (Returned tt,
     {| ambient := ctx';
        request := {| req_headers := req_headers (request w);
                      req_user := Some user |};
        validateToken_calls := validateToken_calls w |}).

Definition checkRoles (user : User) (requiredRoles : list string) : bool :=
  match user_roles user with
  | None => false
  | Some roles =>
      if (length roles =? 0)%nat then false
      else existsb (fun role => includes roles role) requiredRoles
  end.

Definition checkClaims (user : User) (requiredClaims : ClaimsMetadata) : bool :=
  match user_claims user with
  | None => false
  | Some held =>
      if (length held =? 0)%nat then false
      else
        let claims := match requiredClaims with
                      | ClaimArray l => l
                      | SingleClaim c => [c]
                      end in
        forallb (fun requirement =>
          existsb (fun claim =>
            if negb (String.eqb (claim_type claim) (req_type requirement))
            then false
            else match req_value requirement with
                 | Some v => String.eqb (claim_value claim) v
                 | None => true
                 end) held) claims
  end.

(** [`${c.type}:${c.value || '*'}`]. *)
Definition claim_str (c : ClaimRequirement) : string :=
  req_type c +:+ ":" +:+
  (if truthy_string (req_value c) then default "" (req_value c) else "*").

Definition claimsStr (requiredClaims : ClaimsMetadata) : string :=
  match requiredClaims with
  | ClaimArray l => join ", " (map claim_str l)
  | SingleClaim c => claim_str c
  end.

(** [requiredRoles && requiredRoles.length > 0]. *)
Definition roles_required (requiredRoles : option (list string)) : bool :=
  match requiredRoles with
  | Some roles => (0 <? length roles)%nat
  | None => false
  end.

Definition canActivate (guard : StruktosAuthGuard) (context : ExecutionContext)
  : M bool :=
  let isPublic :=
    getAllAndOverride meta_public [getHandler context; getClass context] in
  if bool_decide (isPublic = Some true) then mret true
  else
    request ← getRequest;
    fromContext ← getUserFromContext;
    let user := match fromContext with
                | Some u => Some u
                | None => req_user request
                end in
    user ← (if negb (bool_decide (is_Some user))
               && bool_decide (is_Some (authService guard))
            then authenticateRequest guard request
            else mret user);
    let requiredRoles :=
      getAllAndOverride meta_roles [getHandler context; getClass context] in
    let requiredClaims :=
      getAllAndOverride meta_claims [getHandler context; getClass context] in
    (if roles_required requiredRoles || bool_decide (is_Some requiredClaims)
     then
       match user with
       | None => throw (UnauthorizedException "Authentication required")
       | Some user =>
           storeUserInContext user;;
           (if roles_required requiredRoles
            then
              if negb (checkRoles user (default [] requiredRoles))
              then throw (ForbiddenException
                     ("Required roles: "
                        +:+ join ", " (default [] requiredRoles)))
              else mret tt
            else mret tt);;
           match requiredClaims with
           | Some requiredClaims =>
               if negb (checkClaims user requiredClaims)
               then throw (ForbiddenException
                      ("Required claims: " +:+ claimsStr requiredClaims))
               else mret tt
           | None => mret tt
           end
       end
     else mret tt);;
    match user with
    | Some user => storeUserInContext user
    | None => mret tt
    end;;
    mret true.

(** ** The middleware ([middleware], [StruktosMiddleware]) *)

Module Middleware.

(** The fields of the Express request that [use] reads. *)
Record HttpRequest := mkHttpRequest {
  http_id : option string;
  http_method : string;
  originalUrl : option string;
  http_url : string;
  http_ip : option string;
  remoteAddress : option string;
  user_agent : option string
}.

(** [StruktosCoreModuleOptions]: every field is optional.  The callbacks
    are the caller's code and may throw.  A trace-id generator is
    represented by what its call for this request does: it returns an
    identifier or throws. *)
Record StruktosCoreModuleOptions := mkOptions {
  opt_generateTraceId : option (Outcome string);
  opt_enableCancellation : option bool;
  opt_extractUser : option (HttpRequest -> Outcome (option User));
  opt_onContextCreated :
    option (gmap string Value -> HttpRequest -> Outcome unit)
}.

(** The options as the constructor resolves them; [defaultTraceId] is the
    result of [generateDefaultTraceId()].  [onContextDestroyed] is
    represented by the count of its calls: it runs as the last listener
    of [finish], so an exception it throws reaches the emitter after the
    call and changes nothing in the state kept here. *)
Record ResolvedOptions := mkResolved {
  generateTraceId : Outcome string;
  enableCancellation : bool;
  extractUser : HttpRequest -> Outcome (option User);
  onContextCreated : gmap string Value -> HttpRequest -> Outcome unit
}.

Definition constructor (defaultTraceId : string)
    (options : option StruktosCoreModuleOptions) : ResolvedOptions :=
  {| generateTraceId :=
       default (Returned defaultTraceId)
         (o ← options; opt_generateTraceId o);
     enableCancellation :=
       default true (o ← options; opt_enableCancellation o);
     extractUser :=
       default (fun _ => Returned None) (o ← options; opt_extractUser o);
     onContextCreated :=
       default (fun _ _ => Returned tt)
         (o ← options; opt_onContextCreated o) |}.

(** The closures that [use] registers as event listeners. *)
Inductive Listener :=
| onClose                (* () => context.cancel() *)
| removeCloseListeners   (* the first 'finish' listener *)
| destroyContext.        (* the second 'finish' listener *)

#[global] Instance Listener_eq_dec : EqDecision Listener.
Proof. solve_decision. Defined.

(** The events of the request and of the response that have listeners. *)
Inductive EventName :=
| req_close
| req_aborted
| res_finish.

#[global] Instance EventName_eq_dec : EqDecision EventName.
Proof. solve_decision. Defined.

(** One request in flight: the context record created by
    [RequestContext.run] and captured by the listeners, the listener
    arrays of the two emitters, and the calls made so far. *)
Record Lifecycle := mkLifecycle {
  context : option RequestContext;
  on_req_close : list Listener;
  on_req_aborted : list Listener;
  on_res_finish : list Listener;
  onContextCreated_calls : nat;
  onContextDestroyed_calls : nat;
  next_calls : nat;
  struktosContext : option string   (* [req.traceId], set with the context *)
}.

Definition listeners (name : EventName) (st : Lifecycle) : list Listener :=
  match name with
  | req_close => on_req_close st
  | req_aborted => on_req_aborted st
  | res_finish => on_res_finish st
  end.

(** [emitter.on(name, listener)] appends to the listener array. *)
Definition on (name : EventName) (l : Listener) (st : Lifecycle) : Lifecycle :=
  {| context := context st;
     on_req_close :=
       if bool_decide (name = req_close)
       then on_req_close st ++ [l] else on_req_close st;
     on_req_aborted :=
       if bool_decide (name = req_aborted)
       then on_req_aborted st ++ [l] else on_req_aborted st;
     on_res_finish :=
       if bool_decide (name = res_finish)
       then on_res_finish st ++ [l] else on_res_finish st;
     onContextCreated_calls := onContextCreated_calls st;
     onContextDestroyed_calls := onContextDestroyed_calls st;
     next_calls := next_calls st;
     struktosContext := struktosContext st |}.

(** Remove the most recently added instance of [l], as
    [emitter.removeListener] does. *)
Fixpoint remove_first (l : Listener) (ls : list Listener) : list Listener :=
  match ls with
  | [] => []
  | x :: rest => if bool_decide (x = l) then rest else x :: remove_first l rest
  end.

Definition remove_latest (l : Listener) (ls : list Listener) : list Listener :=
  rev (remove_first l (rev ls)).

Definition removeListener (name : EventName) (l : Listener) (st : Lifecycle)
  : Lifecycle :=
  {| context := context st;
     on_req_close :=
       if bool_decide (name = req_close)
       then remove_latest l (on_req_close st) else on_req_close st;
     on_req_aborted :=
       if bool_decide (name = req_aborted)
       then remove_latest l (on_req_aborted st) else on_req_aborted st;
     on_res_finish :=
       if bool_decide (name = res_finish)
       then remove_latest l (on_res_finish st) else on_res_finish st;
     onContextCreated_calls := onContextCreated_calls st;
     onContextDestroyed_calls := onContextDestroyed_calls st;
     next_calls := next_calls st;
     struktosContext := struktosContext st |}.

(** The bodies of the three closures. *)
Definition run_listener (l : Listener) (st : Lifecycle) : Lifecycle :=
  match l with
  | onClose =>
      {| context := ctx_cancel <$> context st;
         on_req_close := on_req_close st;
         on_req_aborted := on_req_aborted st;
         on_res_finish := on_res_finish st;
         onContextCreated_calls := onContextCreated_calls st;
         onContextDestroyed_calls := onContextDestroyed_calls st;
         next_calls := next_calls st;
         struktosContext := struktosContext st |}
  | removeCloseListeners =>
      removeListener req_aborted onClose (removeListener req_close onClose st)
  | destroyContext =>
      {| context := context st;
         on_req_close := on_req_close st;
         on_req_aborted := on_req_aborted st;
         on_res_finish := on_res_finish st;
         onContextCreated_calls := onContextCreated_calls st;
         onContextDestroyed_calls := S (onContextDestroyed_calls st);
         next_calls := next_calls st;
         struktosContext := struktosContext st |}
  end.

(** [emitter.emit(name)]: the listeners registered at the time of the
    call run in registration order. *)
Definition emit (name : EventName) (st : Lifecycle) : Lifecycle :=
  fold_left (fun st l => run_listener l st) (listeners name st) st.

Definition insert_optional (key : string) (v : option Value)
    (data : gmap string Value) : gmap string Value :=
  match v with
  | Some v => <[key := v]> data
  | None => data
  end.

(** [a || b] on optional strings. *)
Definition or_else (a b : option string) : option string :=
  if truthy_string a then a else b.

(** The initial [contextData] record built by [use] from the trace
    identifier and the user it obtained. *)
Definition contextData (traceId : string) (user : option User) (now : Z)
    (req : HttpRequest) : gmap string Value :=
  insert_optional "userId" (VString <$> (user_id <$> user))
    (insert_optional "user" (VUser <$> user)
      (insert_optional "userAgent" (VString <$> user_agent req)
        (insert_optional "ip"
           (VString <$> or_else (http_ip req) (remoteAddress req))
          (insert_optional "url"
             (VString <$> or_else (originalUrl req) (Some (http_url req)))
            (<["method" := VString (http_method req)]>
              (<["timestamp" := VNumber now]>
                (<["requestId" :=
                     VString (default traceId (http_id req))]>
                  (<["traceId" := VString traceId]> ∅)))))))).

(** Modelled from the spec: [RequestContext.run] of [@struktos/core]
    (section 4.1) establishes a scope holding the initial data as the
    active context and executes the body in it, so [current()] inside
    the body is the fresh record. *)
Definition RequestContext_run {A} (initialData : gmap string Value)
    (body : option RequestContext -> A) : A :=
  body (Some {| ctx_data := initialData; ctx_cancelled := false |}).

(** The state of a request no listener is registered for yet. *)
Definition initial : Lifecycle :=
  {| context := None;
     on_req_close := []; on_req_aborted := []; on_res_finish := [];
     onContextCreated_calls := 0;
     onContextDestroyed_calls := 0;
     next_calls := 0;
     struktosContext := None |}.

(** [use(req, res, next)]: how [use] ends and the state of the request
    at that point.  Nothing in [use] catches an exception: one thrown by
    [generateTraceId], by [extractUser] or by [onContextCreated] leaves
    [use] at once, before the listeners are registered and before
    [next] is called. *)
Definition use (options : ResolvedOptions) (now : Z) (req : HttpRequest)
  : Outcome unit * Lifecycle :=
  match generateTraceId options with
  | Thrown e => (Thrown e, initial)
  | Returned traceId =>
      match extractUser options req with
      | Thrown e => (Thrown e, initial)
      | Returned user =>
          let data := contextData traceId user now req in
          RequestContext_run data (fun current =>
            match current with
            | Some _ =>
                let st :=
                  {| context := current;
                     on_req_close := on_req_close initial;
                     on_req_aborted := on_req_aborted initial;
                     on_res_finish := on_res_finish initial;
                     onContextCreated_calls :=
                       S (onContextCreated_calls initial);
                     onContextDestroyed_calls :=
                       onContextDestroyed_calls initial;
                     next_calls := next_calls initial;
                     struktosContext := struktosContext initial |} in
                match onContextCreated options data req with
                | Thrown e => (Thrown e, st)
                | Returned _ =>
                    let st :=
                      if enableCancellation options
                      then on res_finish removeCloseListeners
                             (on req_aborted onClose
                                (on req_close onClose st))
                      else st in
                    let st := on res_finish destroyContext st in
                    (Returned tt,
                     {| context := context st;
                        on_req_close := on_req_close st;
                        on_req_aborted := on_req_aborted st;
                        on_res_finish := on_res_finish st;
                        onContextCreated_calls := onContextCreated_calls st;
                        onContextDestroyed_calls :=
                          onContextDestroyed_calls st;
                        next_calls := S (next_calls st);
                        struktosContext := Some traceId |})
                end
            | None =>
                (Returned tt,
                 {| context := context initial;
                    on_req_close := on_req_close initial;
                    on_req_aborted := on_req_aborted initial;
                    on_res_finish := on_res_finish initial;
                    onContextCreated_calls := onContextCreated_calls initial;
                    onContextDestroyed_calls :=
                      onContextDestroyed_calls initial;
                    next_calls := S (next_calls initial);
                    struktosContext := struktosContext initial |})
            end)
      end
  end.

(** The events the transport delivers after [use] has returned, in the
    order of their delivery.  The order of the request's [close] and the
    response's [finish] is the transport's: both orders occur on
    requests that complete normally. *)
Definition deliver (events : list EventName) (st : Lifecycle) : Lifecycle :=
  fold_left (fun st name => emit name st) events st.

End Middleware.

(** ** The role-only guard ([guards/auth.guard], [StruktosRolesGuard]) *)

Module StruktosRolesGuard.

(** [getUser]: the context's user when it is set, else [request.user]. *)
Definition getUser : M (option User) :=
  fun w =>
    match ctx ← ambient w; v ← ctx_get "user" ctx; as_user v with
    | Some u => (Returned (Some u), w)
    | None => (Returned (req_user (request w)), w)
    end.

Definition canActivate (context : ExecutionContext) : M bool :=
  let requiredRoles :=
    getAllAndOverride meta_roles [getHandler context; getClass context] in
  match requiredRoles with
  | None => mret true
  | Some requiredRoles =>
      if (length requiredRoles =? 0)%nat then mret true
      else
        user ← getUser;
        match user with
        | None => throw (UnauthorizedException "Authentication required")
        | Some user =>
            if match user_roles user with
               | None => true
               | Some roles =>
                   negb (existsb (fun role => includes roles role)
                           requiredRoles)
               end
            then throw (ForbiddenException
                   ("Required roles: " +:+ join ", " requiredRoles))
            else mret true
        end
  end.

End StruktosRolesGuard.

(** ** The claims-only guard ([guards/auth.guard], [StruktosClaimsGuard]) *)

Module StruktosClaimsGuard.

Definition getUser : M (option User) :=
  fun w =>
    match ctx ← ambient w; v ← ctx_get "user" ctx; as_user v with
    | Some u => (Returned (Some u), w)
    | None => (Returned (req_user (request w)), w)
    end.

(** [user.claims?.some(...)]: [undefined], hence falsy, without claims. *)
Definition hasClaim (user : User) (requirement : ClaimRequirement) : bool :=
  match user_claims user with
  | None => false
  | Some held =>
      existsb (fun claim =>
        if negb (String.eqb (claim_type claim) (req_type requirement))
        then false
        else match req_value requirement with
             | Some v => String.eqb (claim_value claim) v
             | None => true
             end) held
  end.

(** [`Required claim: ${type}${value ? `:${value}` : ''}`]. *)
Definition message (requirement : ClaimRequirement) : string :=
  "Required claim: " +:+ req_type requirement +:+
  (if truthy_string (req_value requirement)
   then ":" +:+ default "" (req_value requirement)
   else "").

(** The [for ... of] loop over the requirements. *)
Fixpoint check_each (user : User) (claims : list ClaimRequirement)
  : M unit :=
  match claims with
  | [] => mret tt
  | requirement :: rest =>
      if negb (hasClaim user requirement)
      then throw (ForbiddenException (message requirement))
      else check_each user rest
  end.

Definition canActivate (context : ExecutionContext) : M bool :=
  let requiredClaims :=
    getAllAndOverride meta_claims [getHandler context; getClass context] in
  match requiredClaims with
  | None => mret true
  | Some requiredClaims =>
      user ← getUser;
      match user with
      | None => throw (UnauthorizedException "Authentication required")
      | Some user =>
          let claims := match requiredClaims with
                        | ClaimArray l => l
                        | SingleClaim c => [c]
                        end in
          check_each user claims;;
          mret true
      end
  end.

End StruktosClaimsGuard.

(** ** Interceptors ([interceptors/context.interceptor]) *)

Module Interceptors.

(** The fields of the request and of the response that the interceptors
    use. *)
Record HttpCall := mkHttpCall {
  call_method : string;
  call_url : string
}.

Record Response := mkResponse {
  statusCode : Z;
  res_headers : gmap string string
}.

Inductive Level := debug | info | error.

(** One call of the logger: [logger.level(message, [err,] metadata)].
    A metadata field whose value is [undefined] is left out. *)
Record LogEntry (E : Type) := mkLogEntry {
  log_level : Level;
  log_message : string;
  log_error : option E;
  log_metadata : gmap string Value
}.
Arguments mkLogEntry {E}.
Arguments log_level {E}.
Arguments log_message {E}.
Arguments log_error {E}.
Arguments log_metadata {E}.

(** What an interceptor can change: the response and the logger's sink. *)
Record Effects (E : Type) := mkEffects {
  response : Response;
  logged_entries : list (LogEntry E)
}.
Arguments mkEffects {E}.
Arguments response {E}.
Arguments logged_entries {E}.

Definition setHeader {E} (name value : string) (eff : Effects E) : Effects E :=
  {| response :=
       {| statusCode := statusCode (response eff);
          res_headers := <[name := value]> (res_headers (response eff)) |};
     logged_entries := logged_entries eff |}.

(** [this.logger?.level(...)]: nothing happens without a logger. *)
Definition log_with {E} (logger : bool) (entry : LogEntry E)
    (eff : Effects E) : Effects E :=
  if logger
  then {| response := response eff;
          logged_entries := logged_entries eff ++ [entry] |}
  else eff.

(** What an observable delivers to its subscriber. *)
Inductive Notification (A E : Type) :=
| Next (value : A)
| Error (err : E)
| Complete.
Arguments Next {A E}.
Arguments Error {A E}.
Arguments Complete {A E}.

(** The stream [next.handle()] of a route handler: its notifications, each
    with the reading of [Date.now()] when it is delivered. *)
Definition Observable (A E : Type) : Type := list (Z * Notification A E).

(** [tap(next)]: run [next] on a value; every notification goes on. *)
Definition tap {A E St} (next : Z → A → St → St)
    (n : Z * Notification A E) (st : St) : St :=
  match n with
  | (now, Next value) => next now value st
  | _ => st
  end.

(** [catchError(handler)] for a handler that ends in
    [throwError(() => err)]: the handler runs on an error and the stream
    fails with the error it hands back. *)
Definition catchError {A E St} (handler : Z → E → St → E * St)
    (n : Z * Notification A E) (st : St) : (Z * Notification A E) * St :=
  match n with
  | (now, Error err) =>
      let (err', st') := handler now err st in ((now, Error err'), st')
  | _ => (n, st)
  end.

(** Subscribing to a piped stream: each notification passes through the
    operators in turn, and nothing is delivered after an error or the
    completion. *)
Fixpoint subscribe {A E St}
    (operators : Z * Notification A E → St → (Z * Notification A E) * St)
    (source : Observable A E) (st : St) : Observable A E * St :=
  match source with
  | [] => ([], st)
  | n :: rest =>
      let (n', st') := operators n st in
      match snd n' with
      | Next _ =>
          let (out, st'') := subscribe operators rest st' in
          (n' :: out, st'')
      | _ => ([n'], st')
      end
  end.

(** [`${duration}ms`]. *)
Definition ms (duration : Z) : string := pretty duration +:+ "ms".

Definition insert_optional (key : string) (v : option Value)
    (data : gmap string Value) : gmap string Value :=
  match v with
  | Some v => <[key := v]> data
  | None => data
  end.

(** The metadata [{ traceId, method, url }] shared by the log calls. *)
Definition call_metadata (traceId : option string) (request : HttpCall)
  : gmap string Value :=
  insert_optional "traceId" (VString <$> traceId)
    (<["method" := VString (call_method request)]>
      (<["url" := VString (call_url request)]> ∅)).

Module StruktosContextInterceptor.

(** [intercept], followed by the subscription of the framework to the
    stream it returns.  [current] is [RequestContext.current()] and
    [now] is [Date.now()] when [intercept] runs. *)
Definition intercept {A E} (logger : bool)
    (current : option RequestContext) (now : Z) (request : HttpCall)
    (handle : Observable A E) (eff : Effects E)
  : Observable A E * Effects E :=
  let traceId := ctx ← current; v ← ctx_get "traceId" ctx; as_string v in
  let startTime :=
    match ctx ← current; v ← ctx_get "timestamp" ctx; as_number v with
    | Some timestamp => if (timestamp =? 0)%Z then now else timestamp
    | None => now
    end in
  let eff :=
    if truthy_string traceId
    then setHeader "X-Trace-Id" (default "" traceId) eff
    else eff in
  let eff :=
    log_with logger
      {| log_level := debug; log_message := "Request started";
         log_error := None;
         log_metadata := call_metadata traceId request |} eff in
  subscribe
    (fun n st =>
       catchError
         (fun now err st =>
            let duration := (now - startTime)%Z in
            (err,
             log_with logger
               {| log_level := error; log_message := "Request failed";
                  log_error := Some err;
                  log_metadata :=
                    <["duration" := VNumber duration]>
                      (call_metadata traceId request) |} st))
         n
         (tap
            (fun now _data st =>
               let duration := (now - startTime)%Z in
               let st := setHeader "X-Response-Time" (ms duration) st in
               log_with logger
                 {| log_level := info; log_message := "Request completed";
                    log_error := None;
                    log_metadata :=
                      <["duration" := VNumber duration]>
                        (<["statusCode" :=
                             VNumber (statusCode (response st))]>
                           (call_metadata traceId request)) |} st)
            n st))
    handle eff.

End StruktosContextInterceptor.

Module StruktosResponseInterceptor.

Definition intercept {A E} (handle : Observable A E) (eff : Effects E)
  : Observable A E * Effects E :=
  subscribe (fun n st => (n, tap (fun _ _ st => st) n st)) handle eff.

End StruktosResponseInterceptor.

Module StruktosTimingInterceptor.

Definition intercept {A E} (now : Z) (handle : Observable A E)
    (eff : Effects E) : Observable A E * Effects E :=
  let startTime := now in
  subscribe
    (fun n st =>
       (n, tap (fun now _ st =>
                  let duration := (now - startTime)%Z in
                  setHeader "X-Response-Time" (ms duration) st) n st))
    handle eff.

End StruktosTimingInterceptor.

End Interceptors.

(** ** Module registration ([module/struktos.module]) *)

Module Modules.

(** Injection tokens: the string constants of the package and of the
    framework, and the names of the provider classes. *)
Definition STRUKTOS_OPTIONS : string := "STRUKTOS_OPTIONS".
Definition AUTH_SERVICE : string := "STRUKTOS_AUTH_SERVICE".
Definition STRUKTOS_LOGGER : string := "STRUKTOS_LOGGER".
Definition APP_GUARD : string := "APP_GUARD".
Definition APP_INTERCEPTOR : string := "APP_INTERCEPTOR".

(** A provider entry: a class on its own, or an object that provides a
    token by value, by factory or by class. *)
Inductive Provider :=
| ClassProvider (class : string)
| ValueProvider (provide : string)
| FactoryProvider (provide : string) (inject : list string)
| UseClassProvider (provide : string) (useClass : string).

(** The token under which a provider entry is registered. *)
Definition token_of (p : Provider) : string :=
  match p with
  | ClassProvider class => class
  | ValueProvider provide => provide
  | FactoryProvider provide _ => provide
  | UseClassProvider provide _ => provide
  end.

Record DynamicModule := mkDynamicModule {
  module : string;
  global : option bool;
  imports : list string;
  providers : list Provider;
  exports : list string
}.

(** [options.isGlobal !== false]. *)
Definition is_global (isGlobal : option bool) : bool :=
  negb (bool_decide (isGlobal = Some false)).

Module StruktosCoreModule.

Definition forRoot (isGlobal : option bool) : DynamicModule :=
  let providers :=
    [ ValueProvider STRUKTOS_OPTIONS;
      ClassProvider "StruktosMiddleware";
      ClassProvider "StruktosAuthGuard";
      ClassProvider "StruktosRolesGuard";
      ClassProvider "StruktosClaimsGuard";
      ClassProvider "StruktosContextInterceptor";
      ClassProvider "StruktosLoggingInterceptor";
      ClassProvider "Reflector" ] in
  {| module := "StruktosCoreModule";
     global := Some (is_global isGlobal);
     imports := [];
     providers := providers;
     exports :=
       [ STRUKTOS_OPTIONS; "StruktosMiddleware"; "StruktosAuthGuard";
         "StruktosRolesGuard"; "StruktosClaimsGuard";
         "StruktosContextInterceptor"; "StruktosLoggingInterceptor" ] |}.

(** [useFactory] is represented by its presence, [inject] and
    [imports] by their lists when given. *)
Definition forRootAsync (isGlobal : option bool) (useFactory : bool)
    (inject imports : option (list string)) : DynamicModule :=
  let asyncProviders :=
    if useFactory
    then [FactoryProvider STRUKTOS_OPTIONS (default [] inject)]
    else [] in
  let providers :=
    asyncProviders ++
    [ ClassProvider "StruktosMiddleware";
      ClassProvider "StruktosAuthGuard";
      ClassProvider "StruktosRolesGuard";
      ClassProvider "StruktosClaimsGuard";
      ClassProvider "StruktosContextInterceptor";
      ClassProvider "StruktosLoggingInterceptor";
      ClassProvider "Reflector" ] in
  {| module := "StruktosCoreModule";
     global := Some (is_global isGlobal);
     imports := default [] imports;
     providers := providers;
     exports :=
       [ STRUKTOS_OPTIONS; "StruktosMiddleware"; "StruktosAuthGuard";
         "StruktosRolesGuard"; "StruktosClaimsGuard";
         "StruktosContextInterceptor"; "StruktosLoggingInterceptor" ] |}.

Definition forFeature : DynamicModule :=
  {| module := "StruktosCoreModule";
     global := None;
     imports := [];
     providers :=
       [ ClassProvider "StruktosAuthGuard";
         ClassProvider "StruktosRolesGuard";
         ClassProvider "StruktosClaimsGuard" ];
     exports :=
       [ "StruktosAuthGuard"; "StruktosRolesGuard";
         "StruktosClaimsGuard" ] |}.

End StruktosCoreModule.

Module StruktosAuthModule.

(** [authService] is represented by whether a (truthy) service was
    given. *)
Definition forRoot (authService : bool) (useGlobalGuard : option bool)
    (isGlobal : option bool) : DynamicModule :=
  let providers :=
    [ ClassProvider "Reflector";
      ClassProvider "StruktosAuthGuard";
      ClassProvider "StruktosRolesGuard";
      ClassProvider "StruktosClaimsGuard" ] in
  let providers :=
    if authService then providers ++ [ValueProvider AUTH_SERVICE]
    else providers in
  let providers :=
    if bool_decide (useGlobalGuard = Some true)
    then providers ++ [UseClassProvider APP_GUARD "StruktosAuthGuard"]
    else providers in
  {| module := "StruktosAuthModule";
     global := Some (is_global isGlobal);
     imports := [];
     providers := providers;
     exports :=
       List.filter (fun token => negb (String.eqb token ""))
         [ "StruktosAuthGuard"; "StruktosRolesGuard";
           "StruktosClaimsGuard"; AUTH_SERVICE ] |}.

Definition forRootAsync (imports inject : option (list string))
    (isGlobal : option bool) : DynamicModule :=
  {| module := "StruktosAuthModule";
     global := Some (is_global isGlobal);
     imports := default [] imports;
     providers :=
       [ ClassProvider "Reflector";
         ClassProvider "StruktosAuthGuard";
         ClassProvider "StruktosRolesGuard";
         ClassProvider "StruktosClaimsGuard";
         FactoryProvider "STRUKTOS_AUTH_OPTIONS" (default [] inject);
         FactoryProvider AUTH_SERVICE ["STRUKTOS_AUTH_OPTIONS"] ];
     exports :=
       [ "StruktosAuthGuard"; "StruktosRolesGuard";
         "StruktosClaimsGuard"; AUTH_SERVICE ] |}.

End StruktosAuthModule.

Module StruktosLoggingModule.

Definition forRoot (logger : bool) (useGlobalInterceptor : option bool)
    (isGlobal : option bool) : DynamicModule :=
  let useGlobalInterceptor :=
    negb (bool_decide (useGlobalInterceptor = Some false)) in
  let providers :=
    [ ClassProvider "StruktosContextInterceptor";
      ClassProvider "StruktosLoggingInterceptor" ] in
  let providers :=
    if logger then providers ++ [ValueProvider STRUKTOS_LOGGER]
    else providers in
  let providers :=
    if useGlobalInterceptor
    then providers
           ++ [UseClassProvider APP_INTERCEPTOR
                 "StruktosContextInterceptor"]
    else providers in
  {| module := "StruktosLoggingModule";
     global := Some (is_global isGlobal);
     imports := [];
     providers := providers;
     exports :=
       List.filter (fun token => negb (String.eqb token ""))
         [ "StruktosContextInterceptor"; "StruktosLoggingInterceptor";
           STRUKTOS_LOGGER ] |}.

End StruktosLoggingModule.

End Modules.

(** ** Notions used to state the properties *)

(** The principal already attached to the request when the guard starts:
    the context's [user], else [request.user]
    ([this.getUserFromContext() || request.user]). *)
Definition attached_user (w : World) : option User :=
  match ctx ← ambient w; v ← ctx_get "user" ctx; as_user v with
  | Some u => Some u
  | None => req_user (request w)
  end.

(** The first statements of [canActivate] after the public check: the
    principal the guard works with, obtained from the context, the request
    or, failing both, the authentication provider. *)
Definition resolvePrincipal (guard : StruktosAuthGuard) : M (option User) :=
  request ← getRequest;
  fromContext ← getUserFromContext;
  let user := match fromContext with
              | Some u => Some u
              | None => req_user request
              end in
  if negb (bool_decide (is_Some user))
     && bool_decide (is_Some (authService guard))
  then authenticateRequest guard request
  else mret user.

(** The route is public: the [isPublic] test of [canActivate]. *)
Definition isPublic (context : ExecutionContext) : bool :=
  bool_decide (getAllAndOverride meta_public
                 [getHandler context; getClass context] = Some true).

(** The requirements [canActivate] reads for a route. *)
Definition requiredRoles (context : ExecutionContext) : option (list string) :=
  getAllAndOverride meta_roles [getHandler context; getClass context].

Definition requiredClaims (context : ExecutionContext)
  : option ClaimsMetadata :=
  getAllAndOverride meta_claims [getHandler context; getClass context].

(** The merge rule in the specification's words: the operation-level
    declaration if present, else the group-level one, else none. *)
Definition effective_roles (operation group : Metadata)
  : option (list string) :=
  match meta_roles operation with
  | Some roles => Some roles
  | None => meta_roles group
  end.

Definition effective_claims (operation group : Metadata)
  : option ClaimsMetadata :=
  match meta_claims operation with
  | Some claims => Some claims
  | None => meta_claims group
  end.

(** A route whose only declarations are the merged ones, on the handler. *)
Definition merged_route (operation group : Metadata) : ExecutionContext :=
  {| getHandler :=
       {| meta_public := getAllAndOverride meta_public [operation; group];
          meta_roles := effective_roles operation group;
          meta_claims := effective_claims operation group |};
     getClass := no_metadata |}.

(** The roles and claims a principal holds ([undefined] holds nothing). *)
Definition roles_of (u : User) : list string := default [] (user_roles u).
Definition claims_of (u : User) : list Claim := default [] (user_claims u).

(** The requirement sequence behind a claims declaration. *)
Definition requirements_of (rc : ClaimsMetadata) : list ClaimRequirement :=
  match rc with
  | ClaimArray l => l
  | SingleClaim c => [c]
  end.

(** A claim requirement is satisfied by a principal, in the specification's
    words: the principal holds a claim of the required type whose value,
    when one is required, is exactly the required value. *)
Definition satisfies (u : User) (r : ClaimRequirement) : Prop :=
  ∃ c, In c (claims_of u)
       ∧ claim_type c = req_type r
       ∧ ∀ v, req_value r = Some v → claim_value c = v.

(** The context record after [storeUserInContext]. *)
Definition with_user (u : User) (ctx : RequestContext) : RequestContext :=
  ctx_set "roles" (VStrings (roles_of u))
    (ctx_set "userId" (VString (user_id u))
       (ctx_set "user" (VUser u) ctx)).

(** The state after [storeUserInContext]. *)
Definition stored (u : User) (w : World) : World :=
  {| ambient := with_user u <$> ambient w;
     request := {| req_headers := req_headers (request w);
                   req_user := Some u |};
     validateToken_calls := validateToken_calls w |}.

(** The authorization header of the request. *)
Definition authorization (r : Request) : option string :=
  headers ← req_headers r; headers !! "authorization".

(** A string without spaces. *)
Fixpoint no_space (s : string) : Prop :=
  match s with
  | EmptyString => True
  | String c rest => c ≠ " "%char ∧ no_space rest
  end.

(** A header of the form [Bearer <token>]: the word, one space, and a
    token that holds no space. *)
Definition bearer_header (header token : string) : Prop :=
  header = "Bearer " +:+ token ∧ no_space token.

(** The token of a bearer header, computed the way [authenticateRequest]
    takes the header apart. *)
Definition bearer_token (header : string) : option string :=
  match split " " header with
  | [p0; p1] => if String.eqb p0 "Bearer" then Some p1 else None
  | _ => None
  end.

(** The state after one call of the provider with [token]. *)
Definition logged (token : string) (w : World) : World :=
  {| ambient := ambient w;
     request := request w;
     validateToken_calls := validateToken_calls w ++ [token] |}.

(** ** Sample data *)

(** Sample principals and states used to exercise the statements. *)
Definition john : User :=
  {| user_id := "user-2"; username := "johndoe"; email := "john@example.com";
     user_roles := Some ["User"];
     user_claims := Some [ {| claim_type := "permission";
                              claim_value := "read:documents" |} ] |}.

Definition nobody : User :=
  {| user_id := "user-3"; username := "guest"; email := "guest@example.com";
     user_roles := None; user_claims := None |}.

Definition empty_context : RequestContext :=
  {| ctx_data := ∅; ctx_cancelled := false |}.

(** A request inside a scope, with no principal and no headers. *)
Definition anonymous_world : World :=
  {| ambient := Some empty_context;
     request := {| req_headers := None; req_user := None |};
     validateToken_calls := [] |}.

(** The same request with [u] already on the request object. *)
Definition world_of (u : User) : World :=
  {| ambient := Some empty_context;
     request := {| req_headers := None; req_user := Some u |};
     validateToken_calls := [] |}.

Definition no_provider : StruktosAuthGuard := {| authService := None |}.

(** An authentication provider in the manner of the example application:
    it knows one token and rejects a malformed one. *)
Definition sample_service : AuthService :=
  {| validateToken := fun token =>
       if String.eqb token "user-token" then Returned (Some john)
       else if String.eqb token "broken"
            then Thrown (ProviderError "jwt malformed")
       else Returned None |}.

Definition with_provider : StruktosAuthGuard :=
  {| authService := Some sample_service |}.

(** A request carrying an authorization header, inside a scope. *)
Definition world_with_header (header : string) : World :=
  {| ambient := Some empty_context;
     request := {| req_headers := Some {[ "authorization" := header ]};
                   req_user := None |};
     validateToken_calls := [] |}.

(** A plain request, and the middleware with its default options. *)
Definition sample_request : Middleware.HttpRequest :=
  {| Middleware.http_id := None;
     Middleware.http_method := "GET";
     Middleware.originalUrl := Some "/users";
     Middleware.http_url := "/users";
     Middleware.http_ip := Some "127.0.0.1";
     Middleware.remoteAddress := None;
     Middleware.user_agent := None |}.

Definition default_options : Middleware.ResolvedOptions :=
  Middleware.constructor "trace-0" None.

(** Options whose [extractUser] throws on every request. *)
Definition throwing_options : Middleware.ResolvedOptions :=
  Middleware.constructor "trace-0"
    (Some {| Middleware.opt_generateTraceId := None;
             Middleware.opt_enableCancellation := None;
             Middleware.opt_extractUser :=
               Some (fun _ => Thrown (UnauthorizedException "Invalid session"));
             Middleware.opt_onContextCreated := None |}).

(** Options whose [extractUser] finds the sample user. *)
Definition extracting_options : Middleware.ResolvedOptions :=
  Middleware.constructor "trace-0"
    (Some {| Middleware.opt_generateTraceId := None;
             Middleware.opt_enableCancellation := None;
             Middleware.opt_extractUser := Some (fun _ => Returned (Some john));
             Middleware.opt_onContextCreated := None |}).

(** The client goes away before the response is complete: the request
    emits [aborted] and [close], and the response never emits [finish]. *)
Definition disconnect_before_completion : list Middleware.EventName :=
  [Middleware.req_aborted; Middleware.req_close].

(** ** The wiring of the listeners *)

(** What holds of the listener arrays from [use] on: the response has
    the destroy listener, preceded by the clean-up listener when
    cancellation is enabled, and the request has only cancel listeners. *)
Definition wired (st : Middleware.Lifecycle) : Prop :=
  (Middleware.on_res_finish st = [Middleware.destroyContext]
   ∨ Middleware.on_res_finish st
     = [Middleware.removeCloseListeners; Middleware.destroyContext])
  ∧ Forall (eq Middleware.onClose) (Middleware.on_req_close st)
  ∧ Forall (eq Middleware.onClose) (Middleware.on_req_aborted st).


(** ** What a message names *)

(** [needle] occurs in [text]. *)
Definition occurs (needle text : string) : Prop :=
  ∃ before after, text = before +:+ needle +:+ after.

(** A list of names written out: the names in their order, a comma and a
    space between two of them. *)
Fixpoint listed (names : list string) : string :=
  match names with
  | [] => ""
  | [name] => name
  | name :: rest => name +:+ ", " +:+ listed rest
  end.

(** ** Notions used by the further properties *)

(** What a decorator stores under the roles key, if anything: [Auth]
    declares roles only when its list is not empty. *)
Definition declares_roles (d : Decorator) : option (list string) :=
  match d with
  | Roles roles => Some roles
  | AdminOnly => Some ["Admin"]
  | ModeratorOrAdmin => Some ["Admin"; "Moderator"]
  | Auth options =>
      match opt_roles options with
      | Some (r :: roles) => Some (r :: roles)
      | _ => None
      end
  | _ => None
  end.

(** What a decorator stores under the claims key, if anything: in [Auth] a
    non-empty [claims] list is applied after [claim] and replaces it. *)
Definition declares_claims (d : Decorator) : option ClaimsMetadata :=
  match d with
  | RequireClaim type value =>
      Some (SingleClaim {| req_type := type; req_value := value |})
  | RequireClaims claims => Some (ClaimArray claims)
  | Auth options =>
      match opt_claims options with
      | Some (c :: claims) => Some (ClaimArray (c :: claims))
      | _ => match opt_claim options with
             | Some claim =>
                 Some (SingleClaim {| req_type := req_type claim;
                                      req_value := req_value claim |})
             | None => None
             end
      end
  | _ => None
  end.

(** The first defined element of a list of optional values. *)
Fixpoint first_defined {T} (l : list (option T)) : option T :=
  match l with
  | [] => None
  | Some x :: _ => Some x
  | None :: rest => first_defined rest
  end.

(** The request has no cancel listener: no event changes the context or
    the listeners of the request. *)
Definition disarmed (st : Middleware.Lifecycle) : Prop :=
  Middleware.on_req_close st = [] ∧ Middleware.on_req_aborted st = []
  ∧ (Middleware.on_res_finish st = [Middleware.destroyContext]
     ∨ Middleware.on_res_finish st
       = [Middleware.removeCloseListeners; Middleware.destroyContext]).

(** The request has its two cancel listeners, as [use] leaves it when
    cancellation is enabled. *)
Definition armed (st : Middleware.Lifecycle) : Prop :=
  Middleware.on_req_close st = [Middleware.onClose]
  ∧ Middleware.on_req_aborted st = [Middleware.onClose]
  ∧ Middleware.on_res_finish st
    = [Middleware.removeCloseListeners; Middleware.destroyContext].


(** What a subscriber receives of a stream: its notifications up to and
    including the first error or completion. *)
Fixpoint delivered {A E} (source : Interceptors.Observable A E)
  : Interceptors.Observable A E :=
  match source with
  | [] => []
  | (now, Interceptors.Next value) :: rest =>
      (now, Interceptors.Next value) :: delivered rest
  | n :: _ => [n]
  end.

(** When the last value of a stream was delivered, if it delivered any. *)
Fixpoint last_value_time {A E} (source : Interceptors.Observable A E)
  : option Z :=
  match source with
  | [] => None
  | (now, Interceptors.Next _) :: rest =>
      match last_value_time rest with
      | Some later => Some later
      | None => Some now
      end
  | _ => None
  end.

(** The number of values a stream delivers, and whether it ends in an
    error. *)
Fixpoint values_delivered {A E} (source : Interceptors.Observable A E) : nat :=
  match source with
  | (_, Interceptors.Next _) :: rest => S (values_delivered rest)
  | _ => 0
  end.

Fixpoint fails {A E} (source : Interceptors.Observable A E) : bool :=
  match source with
  | (_, Interceptors.Next _) :: rest => fails rest
  | (_, Interceptors.Error _) :: _ => true
  | _ => false
  end.

(** [ctx?.get('timestamp') || Date.now()]: where the context interceptor
    counts the duration from. *)
Definition start_time (current : option RequestContext) (now : Z) : Z :=
  match ctx ← current; v ← ctx_get "timestamp" ctx; as_number v with
  | Some timestamp => if (timestamp =? 0)%Z then now else timestamp
  | None => now
  end.

(** [ctx?.get('traceId')]. *)
Definition trace_id (current : option RequestContext) : option string :=
  ctx ← current; v ← ctx_get "traceId" ctx; as_string v.

(** The two operators the context interceptor pipes the handler's stream
    through, [tap] then [catchError], as one step on a notification. *)
Definition context_operators {A E} (logger : bool) (traceId : option string)
    (startTime : Z) (request : Interceptors.HttpCall)
    (n : Z * Interceptors.Notification A E) (st : Interceptors.Effects E)
  : (Z * Interceptors.Notification A E) * Interceptors.Effects E :=
  Interceptors.catchError
    (fun now err st =>
       let duration := (now - startTime)%Z in
       (err,
        Interceptors.log_with logger
          {| Interceptors.log_level := Interceptors.error;
             Interceptors.log_message := "Request failed";
             Interceptors.log_error := Some err;
             Interceptors.log_metadata :=
               <["duration" := VNumber duration]>
                 (Interceptors.call_metadata traceId request) |} st))
    n
    (Interceptors.tap
       (fun now _data st =>
          let duration := (now - startTime)%Z in
          let st :=
            Interceptors.setHeader "X-Response-Time"
              (Interceptors.ms duration) st in
          Interceptors.log_with logger
            {| Interceptors.log_level := Interceptors.info;
               Interceptors.log_message := "Request completed";
               Interceptors.log_error := None;
               Interceptors.log_metadata :=
                 <["duration" := VNumber duration]>
                   (<["statusCode" :=
                        VNumber (Interceptors.statusCode
                                   (Interceptors.response st))]>
                      (Interceptors.call_metadata traceId request)) |} st)
       n st).

(** The state in which the context interceptor subscribes to the stream:
    the trace header set and the start of the request logged. *)
Definition context_started {E} (logger : bool) (traceId : option string)
    (request : Interceptors.HttpCall) (eff : Interceptors.Effects E)
  : Interceptors.Effects E :=
  Interceptors.log_with logger
    {| Interceptors.log_level := Interceptors.debug;
       Interceptors.log_message := "Request started";
       Interceptors.log_error := None;
       Interceptors.log_metadata :=
         Interceptors.call_metadata traceId request |}
    (if truthy_string traceId
     then Interceptors.setHeader "X-Trace-Id" (default "" traceId) eff
     else eff).


(** Every token a module exports is registered by one of its providers. *)
Definition exports_provided (m : Modules.DynamicModule) : bool :=
  forallb (fun token =>
             existsb (fun p => String.eqb (Modules.token_of p) token)
               (Modules.providers m))
    (Modules.exports m).

(** ** Basic facts *)

Section Basics.

Lemma getAllAndOverride_two {T} (key : Metadata → option T) (a b : Metadata) :
  getAllAndOverride key [a; b]
  = match key a with Some r => Some r | None => key b end.
Proof. simpl. destruct (key a), (key b); reflexivity. Qed.

Lemma storeUserInContext_stored (u : User) (w : World) :
  storeUserInContext u w = (Returned tt, stored u w).
Proof.
  unfold storeUserInContext, stored, with_user, roles_of.
  destruct (ambient w); reflexivity.
Qed.

Lemma with_user_idem (u : User) (ctx : RequestContext) :
  with_user u (with_user u ctx) = with_user u ctx.
Proof.
  unfold with_user, ctx_set. simpl. f_equal.
  apply map_eq. intros k.
  rewrite !lookup_insert. repeat case_decide; reflexivity.
Qed.

Lemma stored_idem (u : User) (w : World) : stored u (stored u w) = stored u w.
Proof.
  unfold stored. simpl. f_equal.
  destruct (ambient w); simpl; [| reflexivity].
  by rewrite with_user_idem.
Qed.

Lemma with_user_get_user u ctx :
  ctx_get "user" (with_user u ctx) = Some (VUser u).
Proof. unfold with_user, ctx_get, ctx_set. simpl. by simplify_map_eq. Qed.

Lemma with_user_get_userId u ctx :
  ctx_get "userId" (with_user u ctx) = Some (VString (user_id u)).
Proof. unfold with_user, ctx_get, ctx_set. simpl. by simplify_map_eq. Qed.

Lemma with_user_get_roles u ctx :
  ctx_get "roles" (with_user u ctx) = Some (VStrings (roles_of u)).
Proof. unfold with_user, ctx_get, ctx_set. simpl. by simplify_map_eq. Qed.

End Basics.

(** ** Bearer headers and [authenticateRequest] *)

Section Bearer.

Lemma split_not_nil (s : string) : split " " s ≠ [].
Proof.
  induction s as [| c rest IH]; simpl; [discriminate |].
  destruct (Ascii.eqb c " "); [discriminate |].
  destruct (split " " rest); discriminate.
Qed.

Lemma split_concat (s : string) : String.concat " " (split " " s) = s.
Proof.
  induction s as [| c rest IH]; simpl; [reflexivity |].
  destruct (Ascii.eqb_spec c " ") as [-> | Hc].
  - pose proof (split_not_nil rest) as Hne.
    destruct (split " " rest) as [| p ps]; [congruence |].
    simpl in *. by rewrite IH.
  - pose proof (split_not_nil rest) as Hne.
    destruct (split " " rest) as [| p ps]; [congruence |].
    simpl in *. destruct ps; simpl in *; by rewrite <- IH.
Qed.

Lemma split_parts_no_space (s : string) : Forall no_space (split " " s).
Proof.
  induction s as [| c rest IH]; simpl.
  - by repeat constructor.
  - destruct (Ascii.eqb_spec c " ") as [-> | Hc].
    + by constructor.
    + destruct (split " " rest) as [| p ps].
      * by repeat constructor.
      * inversion IH; subst. constructor; [by split | done].
Qed.

Lemma split_no_space (t : string) : no_space t → split " " t = [t].
Proof.
  induction t as [| c rest IH]; simpl; [reflexivity |].
  intros [Hc Hrest].
  destruct (Ascii.eqb_spec c " ") as [-> | _]; [congruence |].
  by rewrite IH.
Qed.

Lemma bearer_token_spec (header token : string) :
  bearer_token header = Some token ↔ bearer_header header token.
Proof.
  unfold bearer_token, bearer_header. split.
  - pose proof (split_concat header) as Hc.
    pose proof (split_parts_no_space header) as Hn.
    destruct (split " " header) as [| p0 [| p1 [| p2 l]]]; try discriminate.
    destruct (String.eqb_spec p0 "Bearer") as [-> | _]; [| discriminate].
    intros [= ->]. split.
    + by rewrite <- Hc.
    + inversion Hn as [| ? ? _ Hn']; subst. by inversion Hn'.
  - intros [-> Hn]. simpl. change ("" +:+ token) with token.
    by rewrite (split_no_space _ Hn).
Qed.

Lemma bearer_token_empty : bearer_token "" = None.
Proof. reflexivity. Qed.

(** [authenticateRequest] in closed form: the provider is called exactly
    when a service is configured and the header is a bearer header, and a
    rejection is turned into "no user". *)
Lemma authenticateRequest_eq guard req w :
  authenticateRequest guard req w =
  match authService guard, authorization req ≫= bearer_token with
  | Some service, Some token =>
      (match validateToken service token with
       | Returned user => Returned user
       | Thrown _ => Returned None
       end, logged token w)
  | _, _ => (Returned None, w)
  end.
Proof.
  unfold authenticateRequest, authorization.
  destruct (authService guard) as [service |]; [| reflexivity].
  destruct (req_headers req ≫= _) as [h |]; simpl; [| reflexivity].
  destruct (String.eqb_spec h "") as [-> | Hh]; simpl; [reflexivity |].
  unfold bearer_token.
  destruct (split " " h) as [| p0 [| p1 [| p2 l]]]; simpl; try reflexivity.
  destruct (String.eqb_spec p0 "Bearer") as [-> | Hp].
  - rewrite bool_decide_eq_true_2 by reflexivity. simpl.
    unfold try_catch, mbind, M_bind, bind, call_validateToken, logged.
    by destruct (validateToken service p1).
  - rewrite bool_decide_eq_false_2 by congruence. reflexivity.
Qed.

Lemma authenticateRequest_returns guard req w :
  ∃ user, fst (authenticateRequest guard req w) = Returned user.
Proof.
  rewrite authenticateRequest_eq.
  destruct (authService guard); [| by eexists].
  destruct (authorization req ≫= bearer_token); [| by eexists].
  simpl. destruct (validateToken _ _); by eexists.
Qed.

(** [resolvePrincipal] in closed form. *)
Lemma resolvePrincipal_eq guard w :
  resolvePrincipal guard w =
  match attached_user w with
  | Some u => (Returned (Some u), w)
  | None => authenticateRequest guard (request w) w
  end.
Proof.
  unfold resolvePrincipal, attached_user, mbind at 1 2, M_bind, bind,
    getRequest, getUserFromContext.
  cbv beta iota zeta.
  destruct (ambient w ≫= _) as [u |]; simpl; [reflexivity |].
  destruct (req_user (request w)) as [u |]; simpl; [reflexivity |].
  destruct (authService guard) as [service |] eqn:Hs; simpl.
  - reflexivity.
  - unfold authenticateRequest. by rewrite Hs.
Qed.

Lemma resolvePrincipal_returns guard w :
  ∃ user w1,
    resolvePrincipal guard w = (Returned user, w1)
    ∧ ambient w1 = ambient w ∧ request w1 = request w.
Proof.
  rewrite resolvePrincipal_eq.
  destruct (attached_user w) as [u |]; [by eauto |].
  rewrite authenticateRequest_eq.
  destruct (authService guard); [| by eauto].
  destruct (authorization _ ≫= bearer_token); [| by eauto].
  destruct (validateToken _ _); by eauto.
Qed.

End Bearer.

(** ** [canActivate] as a decision table *)

Section DecisionTable.

Variable guard : StruktosAuthGuard.
Variable context : ExecutionContext.

Opaque storeUserInContext.

(** The outcome of [canActivate] and the state it leaves, case by case.
    Every later property of the guard is read off this table. *)
Lemma canActivate_eq (w : World) :
  canActivate guard context w =
  if isPublic context then (Returned true, w)
  else
    match resolvePrincipal guard w with
    | (Thrown e, w1) => (Thrown e, w1)
    | (Returned user, w1) =>
        if roles_required (requiredRoles context)
           || bool_decide (is_Some (requiredClaims context))
        then
          match user with
          | None =>
              (Thrown (UnauthorizedException "Authentication required"), w1)
          | Some u =>
              if roles_required (requiredRoles context)
                 && negb (checkRoles u (default [] (requiredRoles context)))
              then
                (Thrown (ForbiddenException
                   ("Required roles: "
                      +:+ join ", " (default [] (requiredRoles context)))),
                 stored u w1)
              else
                match requiredClaims context with
                | Some rc =>
                    if checkClaims u rc
                    then (Returned true, stored u w1)
                    else
                      (Thrown (ForbiddenException
                         ("Required claims: " +:+ claimsStr rc)),
                       stored u w1)
                | None => (Returned true, stored u w1)
                end
          end
        else
          (Returned true,
           match user with Some u => stored u w1 | None => w1 end)
    end.
Proof.
  unfold canActivate, isPublic, requiredRoles, requiredClaims.
  destruct (bool_decide (getAllAndOverride meta_public _ = Some true));
    [reflexivity |].
  destruct (resolvePrincipal guard w) as [[user | e] w1] eqn:Hr;
    unfold resolvePrincipal in Hr;
    unfold mbind, M_bind, bind, getRequest, getUserFromContext in *;
    cbv beta iota zeta in *; rewrite Hr; [| reflexivity].
  destruct (roles_required (getAllAndOverride meta_roles _)) eqn:Hroles;
    destruct (getAllAndOverride meta_claims _) as [rc |] eqn:Hclaims;
    destruct user as [u |]; simpl; try reflexivity;
    rewrite ?storeUserInContext_stored; simpl;
    try destruct (checkRoles u _); simpl;
    try destruct (checkClaims u rc); simpl;
    rewrite ?storeUserInContext_stored, ?stored_idem; reflexivity.
Qed.

(** The guard never changes the ambient context or the request except by
    storing the principal it resolved. *)
Lemma canActivate_public (w : World) :
  isPublic context = true → canActivate guard context w = (Returned true, w).
Proof. intros Hp. by rewrite canActivate_eq, Hp. Qed.

Transparent storeUserInContext.

End DecisionTable.

(** ** The role and claim checks *)

Section Checks.

Lemma includes_In (l : list string) (x : string) :
  includes l x = true ↔ In x l.
Proof.
  unfold includes. rewrite existsb_exists. split.
  - intros (y & Hy & Heq). apply String.eqb_eq in Heq. by subst.
  - intros Hx. exists x. split; [done | apply String.eqb_refl].
Qed.

Lemma checkRoles_spec (u : User) (rs : list string) :
  checkRoles u rs = true ↔ ∃ r, In r rs ∧ In r (roles_of u).
Proof.
  unfold checkRoles, roles_of.
  destruct (user_roles u) as [[| r0 roles] |]; simpl.
  - split; [discriminate | by intros (? & _ & [])].
  - rewrite existsb_exists. split.
    + intros (r & Hr & Hin). exists r. split; [done |].
      by apply (includes_In (r0 :: roles)).
    + intros (r & Hr & Hin). exists r. split; [done |].
      by apply (includes_In (r0 :: roles)).
  - split; [discriminate | by intros (? & _ & [])].
Qed.

(** The test applied to one held claim and one requirement. *)
Lemma claim_matches (c : Claim) (r : ClaimRequirement) :
  (if negb (String.eqb (claim_type c) (req_type r)) then false
   else match req_value r with
        | Some v => String.eqb (claim_value c) v
        | None => true
        end) = true
  ↔ claim_type c = req_type r
    ∧ ∀ v, req_value r = Some v → claim_value c = v.
Proof.
  destruct (String.eqb_spec (claim_type c) (req_type r)) as [Ht | Ht]; simpl.
  - destruct (req_value r) as [v |].
    + rewrite String.eqb_eq. split.
      * intros Hv. split; [done |]. by intros ? [= <-].
      * intros [_ Hv]. by apply Hv.
    + split; [| done]. intros _. split; [done | discriminate].
  - split; [discriminate | by intros [? _]].
Qed.

Lemma checkClaims_spec (u : User) (rc : ClaimsMetadata) :
  checkClaims u rc = true
  ↔ claims_of u ≠ [] ∧ Forall (satisfies u) (requirements_of rc).
Proof.
  unfold checkClaims, satisfies, claims_of.
  destruct (user_claims u) as [held |]; simpl;
    [| split; [discriminate | by intros [? _]]].
  destruct (Nat.eqb_spec (length held) 0) as [Hz | Hnz].
  { destruct held; [| discriminate].
    split; [discriminate | by intros [? _]]. }
  change (match rc with ClaimArray l => l | SingleClaim c => [c] end)
    with (requirements_of rc).
  rewrite forallb_forall, List.Forall_forall. split.
  - intros Hall. split; [by destruct held |]. intros r Hr.
    specialize (Hall r Hr). apply existsb_exists in Hall.
    destruct Hall as (c & Hc & Hm). apply claim_matches in Hm.
    exists c. by split.
  - intros [_ Hall] r Hr. destruct (Hall r Hr) as (c & Hc & Hm).
    apply existsb_exists. exists c. split; [done |].
    by apply claim_matches.
Qed.

(** [join] writes the elements out in order with the separator between
    them, so that every element occurs in the result. *)
Lemma string_app_assoc (a b c : string) : (a +:+ b) +:+ c = a +:+ b +:+ c.
Proof.
  induction a as [| x a IH]; [reflexivity |].
  change (String x ((a +:+ b) +:+ c) = String x (a +:+ b +:+ c)).
  by rewrite IH.
Qed.

Lemma string_app_nil_r (a : string) : a +:+ "" = a.
Proof.
  induction a as [| x a IH]; [reflexivity |].
  change (String x (a +:+ "") = String x a). by rewrite IH.
Qed.

Lemma join_listed (names : list string) : join ", " names = listed names.
Proof.
  unfold join. induction names as [| x [| y names] IH]; try reflexivity.
  change (String.concat ", " (x :: y :: names))
    with (x +:+ ", " +:+ String.concat ", " (y :: names)).
  by rewrite IH.
Qed.

Lemma listed_occurs (names : list string) (name : string) :
  In name names → occurs name (listed names).
Proof.
  induction names as [| x [| y names] IH].
  - intros [].
  - intros [-> | []]. exists "", "".
    change (name = name +:+ ""). by rewrite string_app_nil_r.
  - intros [-> | Hin].
    + exists "", (", " +:+ listed (y :: names)). reflexivity.
    + destruct (IH Hin) as (before & after & Heq).
      exists (x +:+ ", " +:+ before), after.
      change (listed (x :: y :: names))
        with (x +:+ ", " +:+ listed (y :: names)).
      by rewrite Heq, !string_app_assoc.
Qed.

Lemma roles_message_names (rs : list string) (r : string) :
  In r rs → occurs r ("Required roles: " +:+ join ", " rs).
Proof.
  intros Hin. rewrite join_listed.
  destruct (listed_occurs rs r Hin) as (before & after & ->).
  exists ("Required roles: " +:+ before), after.
  by rewrite !string_app_assoc.
Qed.

End Checks.

(** ** Decorated targets *)

Section Decorators.

Lemma apply_Auth_public options target :
  meta_public (apply_Auth options target) = meta_public target.
Proof.
  unfold apply_Auth.
  destruct (opt_roles options) as [roles |];
    destruct (opt_claim options) as [claim |];
    destruct (opt_claims options) as [claims |];
    repeat match goal with
           | |- context [(0 <? length ?l)%nat] =>
               destruct (0 <? length l)%nat
           end; reflexivity.
Qed.

Lemma apply_decorator_public d target :
  meta_public (apply_decorator d target)
  = match d with Public => Some true | _ => meta_public target end.
Proof. destruct d; try reflexivity. apply apply_Auth_public. Qed.

Lemma decorate_public ds :
  In Public ds → meta_public (decorate ds) = Some true.
Proof.
  induction ds as [| d ds IH]; simpl; [done |].
  intros [-> | Hin]; [reflexivity |].
  rewrite apply_decorator_public. destruct d; auto.
Qed.

Lemma decorate_public_values ds :
  meta_public (decorate ds) = Some true ∨ meta_public (decorate ds) = None.
Proof.
  induction ds as [| d ds IH]; simpl; [by right |].
  rewrite apply_decorator_public. destruct d; auto.
Qed.

End Decorators.

(** ** Properties of the authorization guard *)

(** C1.  The role requirement and the claim requirement of a route are each
    resolved on their own, the operation-level declaration winning over the
    group-level one when it is present: the guard reads exactly the merged
    requirements, a claim declaration never changes the role requirement
    and conversely, and with [Roles("Admin")] on the operation and
    [Roles("User")] on the group a principal whose only role is "User" is
    refused with Forbidden, although the group declaration alone admits
    it. *)
Theorem operation_level_overrides_group_level
    (guard : StruktosAuthGuard) (operation group : Metadata) (w : World) :
  requiredRoles {| getHandler := operation; getClass := group |}
    = effective_roles operation group
  ∧ requiredClaims {| getHandler := operation; getClass := group |}
    = effective_claims operation group
  ∧ canActivate guard {| getHandler := operation; getClass := group |} w
    = canActivate guard (merged_route operation group) w
  ∧ (∀ c c', effective_roles (SetMetadata_claims c operation)
                             (SetMetadata_claims c' group)
             = effective_roles operation group)
  ∧ (∀ r r', effective_claims (SetMetadata_roles r operation)
                              (SetMetadata_roles r' group)
             = effective_claims operation group)
  ∧ (∀ u, user_roles u = Some ["User"] →
          attached_user w = Some u →
          canActivate guard
            {| getHandler := decorate [Roles ["Admin"]];
               getClass := decorate [Roles ["User"]] |} w
          = (Thrown (ForbiddenException "Required roles: Admin"), stored u w)
          ∧ canActivate guard
              {| getHandler := no_metadata;
                 getClass := decorate [Roles ["User"]] |} w
            = (Returned true, stored u w)).
Proof.
  split; [apply getAllAndOverride_two |].
  split; [apply getAllAndOverride_two |].
  split.
  { rewrite !canActivate_eq.
    unfold isPublic, requiredRoles, requiredClaims, merged_route,
      effective_roles, effective_claims.
    cbn [getHandler getClass meta_public meta_roles meta_claims].
    rewrite !getAllAndOverride_two.
    cbn [no_metadata meta_public meta_roles meta_claims].
    destruct (meta_public operation), (meta_public group),
      (meta_roles operation), (meta_roles group),
      (meta_claims operation), (meta_claims group); reflexivity. }
  split; [reflexivity |].
  split; [reflexivity |].
  intros u Hroles Hattached. split.
  - rewrite canActivate_eq, resolvePrincipal_eq, Hattached.
    unfold checkRoles. rewrite Hroles. reflexivity.
  - rewrite canActivate_eq, resolvePrincipal_eq, Hattached.
    unfold checkRoles. rewrite Hroles. reflexivity.
Qed.

Lemma operation_level_overrides_group_level_witness :
  canActivate no_provider
    {| getHandler := decorate [Roles ["Admin"]];
       getClass := decorate [Roles ["User"]] |} (world_of john)
  = (Thrown (ForbiddenException "Required roles: Admin"),
     stored john (world_of john))
  ∧ canActivate no_provider
      {| getHandler := no_metadata; getClass := decorate [Roles ["User"]] |}
      (world_of john)
    = (Returned true, stored john (world_of john)).
Proof.
  apply (operation_level_overrides_group_level
           no_provider no_metadata no_metadata (world_of john));
    reflexivity.
Defined.

(** C3, the defect.  A route declares [RequireClaims([])] and the
    principal holds no claim.  Every element of the empty sequence is
    satisfied, yet [checkClaims] answers no before it looks at the
    sequence, and the unified guard refuses the request with a Forbidden
    whose list of required claims is empty.  The code itself says
    otherwise: the test that follows in [checkClaims] is "AND logic - all
    claims must be satisfied"; the claims-only guard, which runs the same
    test without the early return, allows this principal on this route;
    and [Auth] treats an empty list of claims as no requirement at
    all. *)
Theorem claim_check_empty_sequence_divergence :
  let route :=
    {| getHandler := decorate [RequireClaims []]; getClass := no_metadata |} in
  Forall (satisfies nobody) (requirements_of (ClaimArray []))
  ∧ checkClaims nobody (ClaimArray []) = false
  ∧ canActivate no_provider route (world_of nobody)
    = (Thrown (ForbiddenException "Required claims: "),
       stored nobody (world_of nobody))
  ∧ StruktosClaimsGuard.canActivate route (world_of nobody)
    = (Returned true, world_of nobody)
  ∧ decorate [Auth {| opt_roles := None; opt_claim := None;
                      opt_claims := Some [] |}]
    = no_metadata.
Proof.
  repeat split. constructor.
Qed.

(** On every other input the claim check is the conjunction of its
    requirements: provided the sequence is not empty or the principal
    holds at least one claim, the check succeeds if and only if every
    element of the sequence is satisfied, an element with type [t] and
    optional value [v] being satisfied exactly when the principal holds a
    claim of type [t] whose value, when [v] is present, is exactly [v];
    when [v] is absent the type alone decides. *)
Theorem claim_check_and_semantics (u : User) (rc : ClaimsMetadata) :
  requirements_of rc ≠ [] ∨ claims_of u ≠ [] →
  (checkClaims u rc = true ↔ Forall (satisfies u) (requirements_of rc)).
Proof.
  intros Hscope. rewrite checkClaims_spec. split; [by intros [_ H] |].
  intros Hall. split; [| done].
  destruct Hscope as [Hreq | Hheld]; [| done].
  destruct (requirements_of rc) as [| r l]; [done |].
  inversion Hall as [| ? ? (c & Hc & _) _]; subst.
  intros Hnil. rewrite Hnil in Hc. destruct Hc.
Qed.

Lemma claim_check_and_semantics_witness :
  checkClaims john
    (ClaimArray [ {| req_type := "permission";
                     req_value := Some "read:documents" |};
                  {| req_type := "permission"; req_value := None |} ]) = true
  ↔ Forall (satisfies john)
      (requirements_of
         (ClaimArray [ {| req_type := "permission";
                          req_value := Some "read:documents" |};
                       {| req_type := "permission"; req_value := None |} ])).
Proof.
  apply (claim_check_and_semantics john). left. discriminate.
Defined.

(** C4.  On a route that is not public, whenever a role or claim
    requirement is in force and the guard ends up without a principal, it
    fails with Unauthenticated; and when a principal was already attached
    to the request, by the context (as the middleware's eager extraction
    does) or on the request object, the authentication provider is not
    called at all. *)
Theorem missing_principal_is_unauthenticated
    (guard : StruktosAuthGuard) (context : ExecutionContext) (w : World) :
  (∀ w1,
     isPublic context = false →
     roles_required (requiredRoles context) = true
       ∨ is_Some (requiredClaims context) →
     resolvePrincipal guard w = (Returned None, w1) →
     canActivate guard context w
     = (Thrown (UnauthorizedException "Authentication required"), w1))
  ∧ (∀ u,
       attached_user w = Some u →
       validateToken_calls (snd (canActivate guard context w))
       = validateToken_calls w)
  ∧ (∀ options now req u,
       Middleware.extractUser options req = Returned (Some u) →
       fst (Middleware.use options now req) = Returned tt →
       ambient w
       = Middleware.context (snd (Middleware.use options now req)) →
       attached_user w = Some u).
Proof.
  split; [| split].
  - intros w1 Hpublic Hreq Hnone.
    rewrite canActivate_eq, Hpublic, Hnone.
    destruct Hreq as [-> | Hclaims]; [reflexivity |].
    rewrite (bool_decide_eq_true_2 _ Hclaims), orb_true_r. reflexivity.
  - intros u Hu. rewrite canActivate_eq, resolvePrincipal_eq, Hu.
    destruct (isPublic context); [reflexivity |].
    destruct (_ || _); [| reflexivity].
    destruct (_ && _); [reflexivity |].
    destruct (requiredClaims context) as [rc |]; [| reflexivity].
    destruct (checkClaims u rc); reflexivity.
  - intros options now req u Hextract Hok Hambient.
    unfold attached_user. rewrite Hambient. clear Hambient. revert Hok.
    unfold Middleware.use, Middleware.RequestContext_run,
      Middleware.contextData.
    rewrite Hextract.
    destruct (Middleware.generateTraceId options) as [traceId | e];
      [| discriminate].
    destruct (Middleware.onContextCreated options _ req) as [[] | e];
      [| discriminate].
    intros _.
    destruct (Middleware.enableCancellation options); simpl;
      unfold ctx_get; simpl; by simplify_map_eq.
Qed.

Lemma missing_principal_is_unauthenticated_witness :
  canActivate no_provider
    {| getHandler := decorate [Roles ["Admin"]]; getClass := no_metadata |}
    anonymous_world
  = (Thrown (UnauthorizedException "Authentication required"),
     anonymous_world)
  ∧ validateToken_calls
      (snd (canActivate with_provider
              {| getHandler := decorate [Roles ["Admin"]];
                 getClass := no_metadata |} (world_of john)))
    = [].
Proof.
  split.
  - apply (proj1 (missing_principal_is_unauthenticated no_provider
             {| getHandler := decorate [Roles ["Admin"]];
                getClass := no_metadata |} anonymous_world));
      [reflexivity | left; reflexivity | reflexivity].
  - apply (proj1 (proj2 (missing_principal_is_unauthenticated with_provider
             {| getHandler := decorate [Roles ["Admin"]];
                getClass := no_metadata |} (world_of john))) john).
    reflexivity.
Defined.

(** C5.  When [Public] is declared on the operation or on its group, the
    guard allows the request at once and does nothing else: no principal is
    looked up, the provider is not called, the state is untouched.  This
    holds whatever the other level declares and whether or not a principal
    is present. *)
Theorem public_at_either_level_allows
    (guard : StruktosAuthGuard) (operation group : list Decorator) (w : World) :
  In Public operation ∨ In Public group →
  canActivate guard
    {| getHandler := decorate operation; getClass := decorate group |} w
  = (Returned true, w).
Proof.
  intros Hpublic. apply canActivate_public.
  unfold isPublic. apply bool_decide_eq_true_2.
  rewrite getAllAndOverride_two. cbn [getHandler getClass].
  destruct Hpublic as [Hop | Hgroup].
  - by rewrite (decorate_public _ Hop).
  - rewrite (decorate_public _ Hgroup).
    by destruct (decorate_public_values operation) as [-> | ->].
Qed.

Lemma public_at_either_level_allows_witness :
  (In Public [Public] ∨ In Public [Roles ["Admin"]])
  ∧ canActivate with_provider
      {| getHandler := decorate [Public];
         getClass := decorate [Roles ["Admin"]] |} anonymous_world
    = (Returned true, anonymous_world).
Proof.
  split.
  - left. simpl. by left.
  - apply (public_at_either_level_allows with_provider
             [Public] [Roles ["Admin"]] anonymous_world).
    left. simpl. by left.
Defined.

(** C6.  For a principal and a non-empty role requirement in force, the
    role check succeeds if and only if the principal holds at least one of
    the required roles (OR semantics); when it fails the request is refused
    with Forbidden and the message names the required roles: it is
    [Required roles: ] followed by the roles in their order, separated by
    a comma and a space, so that every required role occurs in it; and
    when the check succeeds the request is allowed unless a claim
    requirement refuses it. *)
Theorem role_check_or_semantics
    (guard : StruktosAuthGuard) (context : ExecutionContext) (w w1 : World)
    (u : User) (rs : list string) :
  rs ≠ [] →
  isPublic context = false →
  requiredRoles context = Some rs →
  resolvePrincipal guard w = (Returned (Some u), w1) →
  (checkRoles u rs = true ↔ ∃ r, In r rs ∧ In r (roles_of u))
  ∧ (checkRoles u rs = false →
     canActivate guard context w
     = (Thrown (ForbiddenException ("Required roles: " +:+ join ", " rs)),
        stored u w1))
  ∧ (checkRoles u rs = true →
     canActivate guard context w
     = match requiredClaims context with
       | Some rc =>
           if checkClaims u rc then (Returned true, stored u w1)
           else (Thrown (ForbiddenException
                           ("Required claims: " +:+ claimsStr rc)),
                 stored u w1)
       | None => (Returned true, stored u w1)
       end)
  ∧ (checkRoles u rs = false →
     ∃ message,
       fst (canActivate guard context w) = Thrown (ForbiddenException message)
       ∧ message = "Required roles: " +:+ listed rs
       ∧ ∀ r, In r rs → occurs r message).
Proof.
  intros Hne Hpublic Hroles Hu.
  assert (Hreq : roles_required (requiredRoles context) = true).
  { rewrite Hroles. destruct rs; [done | reflexivity]. }
  split; [apply checkRoles_spec |].
  split; [| split]; intros Hcheck;
    rewrite canActivate_eq, Hpublic, Hu, Hreq, Hroles; simpl;
    rewrite Hcheck; try reflexivity.
  simpl. eexists. split; [reflexivity |].
  split; [by rewrite join_listed |].
  intros r Hin. by apply roles_message_names.
Qed.

Lemma role_check_or_semantics_witness :
  canActivate no_provider
    {| getHandler := decorate [ModeratorOrAdmin]; getClass := no_metadata |}
    (world_of john)
  = (Thrown (ForbiddenException "Required roles: Admin, Moderator"),
     stored john (world_of john))
  ∧ (checkRoles john ["Admin"; "Moderator"] = true
     ↔ ∃ r, In r ["Admin"; "Moderator"] ∧ In r (roles_of john)).
Proof.
  pose proof (role_check_or_semantics no_provider
                {| getHandler := decorate [ModeratorOrAdmin];
                   getClass := no_metadata |}
                (world_of john) (world_of john) john ["Admin"; "Moderator"])
    as H.
  destruct H as (H1 & H2 & _);
    [discriminate | reflexivity | reflexivity | reflexivity |].
  split; [exact (H2 eq_refl) | exact H1].
Defined.

(** C7.  On a route that is not public, when neither a role requirement nor
    a claim requirement is in force the guard allows the request whether or
    not a principal is present; and a principal that is present is still
    stored, so that inside a scope [user], [userId] and [roles] can be read
    from the current context afterwards. *)
Theorem no_requirement_allows
    (guard : StruktosAuthGuard) (context : ExecutionContext) (w w1 : World)
    (user : option User) :
  isPublic context = false →
  roles_required (requiredRoles context) = false →
  requiredClaims context = None →
  resolvePrincipal guard w = (Returned user, w1) →
  fst (canActivate guard context w) = Returned true
  ∧ ∀ u ctx,
      user = Some u →
      ambient w = Some ctx →
      let current := ambient (snd (canActivate guard context w)) in
      current = Some (with_user u ctx)
      ∧ (current ≫= ctx_get "user") = Some (VUser u)
      ∧ (current ≫= ctx_get "userId") = Some (VString (user_id u))
      ∧ (current ≫= ctx_get "roles") = Some (VStrings (roles_of u))
      ∧ ContextDecorators.UserId current = Some (user_id u)
      ∧ req_user (request (snd (canActivate guard context w))) = Some u.
Proof.
  intros Hpublic Hroles Hclaims Hu.
  rewrite canActivate_eq, Hpublic, Hu, Hroles, Hclaims. simpl.
  split; [reflexivity |].
  intros u ctx -> Hctx.
  destruct (resolvePrincipal_returns guard w) as (user' & w1' & Hr & Ha & _).
  rewrite Hu in Hr. injection Hr as <- <-.
  simpl. rewrite Ha, Hctx. simpl.
  unfold ContextDecorators.UserId. simpl.
  rewrite with_user_get_user, with_user_get_userId, with_user_get_roles.
  repeat split; reflexivity.
Qed.

Lemma no_requirement_allows_witness :
  fst (canActivate no_provider
         {| getHandler := no_metadata; getClass := no_metadata |}
         anonymous_world) = Returned true
  ∧ fst (canActivate no_provider
           {| getHandler := no_metadata; getClass := no_metadata |}
           (world_of john)) = Returned true
  ∧ ContextDecorators.UserId
      (ambient (snd (canActivate no_provider
                       {| getHandler := no_metadata; getClass := no_metadata |}
                       (world_of john))))
    = Some "user-2".
Proof.
  split; [| split].
  - apply (no_requirement_allows no_provider
             {| getHandler := no_metadata; getClass := no_metadata |}
             anonymous_world anonymous_world None); reflexivity.
  - apply (no_requirement_allows no_provider
             {| getHandler := no_metadata; getClass := no_metadata |}
             (world_of john) (world_of john) (Some john)); reflexivity.
  - apply (proj2 (no_requirement_allows no_provider
             {| getHandler := no_metadata; getClass := no_metadata |}
             (world_of john) (world_of john) (Some john)
             eq_refl eq_refl eq_refl eq_refl) john empty_context);
      reflexivity.
Defined.

(** C8.  The authentication provider is called only when no principal is
    attached yet and the authorization header has the form
    [Bearer <token>] (the token being the rest of the header, free of
    spaces), and then once, with that token.  A missing or malformed header
    gives "no principal" without any call, a rejection by the provider
    gives "no principal" as well, [authenticateRequest] never throws, and
    the guard never lets a provider fault through. *)
Theorem provider_called_only_for_bearer
    (guard : StruktosAuthGuard) (context : ExecutionContext) (w : World) :
  (∀ req, ∃ user, fst (authenticateRequest guard req w) = Returned user)
  ∧ (validateToken_calls (snd (canActivate guard context w))
       ≠ validateToken_calls w →
     attached_user w = None
     ∧ ∃ header token,
         authorization (request w) = Some header
         ∧ bearer_header header token
         ∧ validateToken_calls (snd (canActivate guard context w))
           = validateToken_calls w ++ [token])
  ∧ (∀ req,
       (∀ header token,
          authorization req = Some header → ¬ bearer_header header token) →
       authenticateRequest guard req w = (Returned None, w))
  ∧ (∀ req service header token e,
       authService guard = Some service →
       authorization req = Some header →
       bearer_header header token →
       validateToken service token = Thrown e →
       authenticateRequest guard req w = (Returned None, logged token w))
  ∧ (∀ message,
       fst (canActivate guard context w) ≠ Thrown (ProviderError message)).
Proof.
  split; [intros req; apply authenticateRequest_returns |].
  split.
  { rewrite canActivate_eq, resolvePrincipal_eq, authenticateRequest_eq.
    destruct (isPublic context); [done |].
    destruct (attached_user w) as [u |].
    { intros H. exfalso. apply H. clear H.
      destruct (_ || _); [| reflexivity].
      destruct (_ && _); [reflexivity |].
      destruct (requiredClaims context) as [rc |]; [| reflexivity].
      destruct (checkClaims u rc); reflexivity. }
    destruct (authService guard) as [service |];
      [| intros H; exfalso; apply H; by destruct (_ || _)].
    destruct (authorization (request w)) as [header |] eqn:Hheader; simpl;
      [| intros H; exfalso; apply H; by destruct (_ || _)].
    destruct (bearer_token header) as [token |] eqn:Htoken;
      [| intros H; exfalso; apply H; by destruct (_ || _)].
    intros _. split; [reflexivity |].
    exists header, token. split; [reflexivity |].
    split; [by apply bearer_token_spec |].
    destruct (validateToken service token) as [[u |] | e];
      destruct (_ || _); try reflexivity;
      destruct (_ && _); try reflexivity;
      destruct (requiredClaims context) as [rc |]; try reflexivity;
      destruct (checkClaims u rc); reflexivity. }
  split.
  { intros req Hmalformed. rewrite authenticateRequest_eq.
    destruct (authService guard); [| reflexivity].
    destruct (authorization req) as [header |]; simpl; [| reflexivity].
    destruct (bearer_token header) as [token |] eqn:Htoken; [| reflexivity].
    apply bearer_token_spec in Htoken. by destruct (Hmalformed header token). }
  split.
  { intros req service header token e Hservice Hheader Hbearer Hthrown.
    rewrite authenticateRequest_eq, Hservice, Hheader. simpl.
    apply bearer_token_spec in Hbearer. by rewrite Hbearer, Hthrown. }
  intros message. rewrite canActivate_eq.
  destruct (isPublic context); [discriminate |].
  destruct (resolvePrincipal_returns guard w) as (user & w1 & -> & _).
  destruct (_ || _); [| discriminate].
  destruct user as [u |]; [| discriminate].
  destruct (_ && _); [discriminate |].
  destruct (requiredClaims context) as [rc |]; [| discriminate].
  destruct (checkClaims u rc); discriminate.
Qed.

Lemma provider_called_only_for_bearer_witness :
  authenticateRequest with_provider
    (request (world_with_header "Bearer broken"))
    (world_with_header "Bearer broken")
  = (Returned None, logged "broken" (world_with_header "Bearer broken"))
  ∧ authenticateRequest with_provider
      (request (world_with_header "Basic dXNlcg=="))
      (world_with_header "Basic dXNlcg==")
    = (Returned None, world_with_header "Basic dXNlcg==").
Proof.
  split.
  - apply (proj1 (proj2 (proj2 (proj2
             (provider_called_only_for_bearer with_provider
                {| getHandler := no_metadata; getClass := no_metadata |}
                (world_with_header "Bearer broken")))))
             (request (world_with_header "Bearer broken"))
             sample_service "Bearer broken" "broken"
             (ProviderError "jwt malformed")).
    + reflexivity.
    + reflexivity.
    + split; [reflexivity | simpl; repeat split; discriminate].
    + reflexivity.
  - apply (proj1 (proj2 (proj2
             (provider_called_only_for_bearer with_provider
                {| getHandler := no_metadata; getClass := no_metadata |}
                (world_with_header "Basic dXNlcg=="))))).
    intros header token Hheader [Hform _].
    assert (header = "Basic dXNlcg==") as -> by (by injection Hheader).
    discriminate Hform.
Defined.

(** C9.  Outside any scope no context accessor fails: the decorators that
    read the context ([Ctx], [TraceId], [CurrentUser], [UserId],
    [RequestTimestamp]) inject an absent value, the thunk injected by
    [IsCancelled] answers false whenever it is called, and the guard's own
    accessors read nothing and store nothing in a context. *)
Theorem accessors_outside_scope
    (data : option string) (later : RequestContext → RequestContext)
    (u : User) (r : Request) (calls : list string) :
  let w := {| ambient := None; request := r; validateToken_calls := calls |} in
  ContextDecorators.Ctx data None = None
  ∧ ContextDecorators.TraceId None = None
  ∧ ContextDecorators.CurrentUser data None = None
  ∧ ContextDecorators.UserId None = None
  ∧ ContextDecorators.RequestTimestamp None = None
  ∧ ContextDecorators.IsCancelled None later = false
  ∧ getUserFromContext w = (Returned None, w)
  ∧ fst (storeUserInContext u w) = Returned tt
  ∧ ambient (snd (storeUserInContext u w)) = None.
Proof. repeat split. Qed.

(** C10.  On a route that is not public, whenever a role or claim
    requirement is in force and a principal is present, the guard stores
    the principal in the current context ([user], [userId], [roles]) and on
    the request object before it runs the checks: whatever the outcome, the
    state it leaves is the state with the principal stored, so a request
    refused with Forbidden leaves the refused principal in the context. *)
Theorem principal_stored_before_checks
    (guard : StruktosAuthGuard) (context : ExecutionContext) (w w1 : World)
    (u : User) :
  isPublic context = false →
  roles_required (requiredRoles context) = true
    ∨ is_Some (requiredClaims context) →
  resolvePrincipal guard w = (Returned (Some u), w1) →
  snd (canActivate guard context w) = stored u w1
  ∧ req_user (request (snd (canActivate guard context w))) = Some u
  ∧ (∀ ctx, ambient w = Some ctx →
       ambient (snd (canActivate guard context w)) = Some (with_user u ctx))
  ∧ (∀ message ctx,
       fst (canActivate guard context w)
         = Thrown (ForbiddenException message) →
       ambient w = Some ctx →
       let current := ambient (snd (canActivate guard context w)) in
       (current ≫= ctx_get "user") = Some (VUser u)
       ∧ (current ≫= ctx_get "userId") = Some (VString (user_id u))
       ∧ (current ≫= ctx_get "roles") = Some (VStrings (roles_of u))).
Proof.
  intros Hpublic Hreq Hu.
  assert (Hstate : snd (canActivate guard context w) = stored u w1).
  { rewrite canActivate_eq, Hpublic, Hu.
    assert (Hany : roles_required (requiredRoles context)
                   || bool_decide (is_Some (requiredClaims context)) = true).
    { destruct Hreq as [-> | Hclaims]; [reflexivity |].
      by rewrite (bool_decide_eq_true_2 _ Hclaims), orb_true_r. }
    rewrite Hany.
    destruct (_ && _); [reflexivity |].
    destruct (requiredClaims context) as [rc |]; [| reflexivity].
    destruct (checkClaims u rc); reflexivity. }
  destruct (resolvePrincipal_returns guard w) as (user' & w1' & Hr & Ha & _).
  rewrite Hu in Hr. injection Hr as <- <-.
  rewrite Hstate. simpl.
  split; [reflexivity |]. split; [reflexivity |].
  split.
  - intros ctx Hctx. by rewrite Ha, Hctx.
  - intros message ctx _ Hctx. rewrite Ha, Hctx. simpl.
    by rewrite with_user_get_user, with_user_get_userId, with_user_get_roles.
Qed.

Lemma principal_stored_before_checks_witness :
  fst (canActivate no_provider
         {| getHandler := decorate [AdminOnly]; getClass := no_metadata |}
         (world_of john))
  = Thrown (ForbiddenException "Required roles: Admin")
  ∧ snd (canActivate no_provider
           {| getHandler := decorate [AdminOnly]; getClass := no_metadata |}
           (world_of john))
    = stored john (world_of john).
Proof.
  split; [reflexivity |].
  apply (principal_stored_before_checks no_provider
           {| getHandler := decorate [AdminOnly]; getClass := no_metadata |}
           (world_of john) (world_of john) john);
    [reflexivity | left; reflexivity | reflexivity].
Defined.

(** ** The lifecycle of one request *)

Module MiddlewareFacts.
Import Middleware.

Lemma remove_first_Forall (P : Listener → Prop) l ls :
  Forall P ls → Forall P (remove_first l ls).
Proof.
  induction 1 as [| x xs Hx Hxs IH]; simpl; [constructor |].
  case_bool_decide; [done | by constructor].
Qed.

Lemma remove_latest_Forall (P : Listener → Prop) l ls :
  Forall P ls → Forall P (remove_latest l ls).
Proof.
  intros H. unfold remove_latest.
  apply List.Forall_rev, remove_first_Forall, List.Forall_rev, H.
Qed.

(** Running cancel listeners touches nothing but the cancellation flag. *)
Lemma run_cancel_listeners ls st :
  Forall (eq onClose) ls →
  let st' := fold_left (fun st l => run_listener l st) ls st in
  on_req_close st' = on_req_close st
  ∧ on_req_aborted st' = on_req_aborted st
  ∧ on_res_finish st' = on_res_finish st
  ∧ onContextCreated_calls st' = onContextCreated_calls st
  ∧ onContextDestroyed_calls st' = onContextDestroyed_calls st.
Proof.
  intros H. revert st.
  induction H as [| l ls <- _ IH]; intros st; simpl; [done |].
  apply (IH (run_listener onClose st)).
Qed.

Lemma emit_wired name st :
  wired st →
  wired (emit name st)
  ∧ onContextCreated_calls (emit name st) = onContextCreated_calls st
  ∧ onContextDestroyed_calls (emit name st)
    = if bool_decide (name = res_finish)
      then S (onContextDestroyed_calls st)
      else onContextDestroyed_calls st.
Proof.
  intros (Hfinish & Hclose & Haborted). unfold emit, wired.
  destruct name; simpl.
  - pose proof (run_cancel_listeners _ st Hclose) as H. simpl in H.
    destruct H as (-> & -> & -> & -> & ->). by repeat split.
  - pose proof (run_cancel_listeners _ st Haborted) as H. simpl in H.
    destruct H as (-> & -> & -> & -> & ->). by repeat split.
  - destruct Hfinish as [Hf | Hf]; rewrite Hf; simpl.
    + repeat split; auto.
    + repeat split; auto; by apply remove_latest_Forall.
Qed.

Lemma deliver_wired events st :
  wired st →
  wired (deliver events st)
  ∧ onContextCreated_calls (deliver events st) = onContextCreated_calls st
  ∧ onContextDestroyed_calls (deliver events st)
    = onContextDestroyed_calls st
      + count_occ EventName_eq_dec events res_finish.
Proof.
  revert st. induction events as [| name events IH]; intros st Hw; simpl.
  - repeat split; [apply Hw.. | lia].
  - destruct (emit_wired name st Hw) as (Hw' & Hc & Hd).
    destruct (IH _ Hw') as (Hw'' & Hc' & Hd').
    fold (deliver events (emit name st)).
    split; [done |]. split; [congruence |].
    rewrite Hd', Hd.
    destruct (EventName_eq_dec name res_finish) as [-> | Hne].
    + rewrite bool_decide_eq_true_2 by done. lia.
    + rewrite bool_decide_eq_false_2 by done. lia.
Qed.

Lemma use_wired options now req :
  fst (use options now req) = Returned tt →
  wired (snd (use options now req))
  ∧ onContextCreated_calls (snd (use options now req)) = 1
  ∧ onContextDestroyed_calls (snd (use options now req)) = 0.
Proof.
  unfold use, RequestContext_run, wired.
  destruct (generateTraceId options) as [traceId | e]; [| discriminate].
  destruct (extractUser options req) as [user | e]; [| discriminate].
  destruct (onContextCreated options _ req) as [[] | e]; [| discriminate].
  intros _.
  destruct (enableCancellation options); simpl;
    repeat split; auto; repeat constructor.
Qed.

(** When [use] has returned, the number of calls of the "context
    destroyed" callback is the number of [finish] events delivered. *)
Lemma destroyed_calls_count options now req events :
  fst (use options now req) = Returned tt →
  onContextDestroyed_calls (deliver events (snd (use options now req)))
  = count_occ EventName_eq_dec events res_finish.
Proof.
  intros Hok. destruct (use_wired options now req Hok) as (Hw & _ & Hz).
  destruct (deliver_wired events _ Hw) as (_ & _ & ->).
  by rewrite Hz.
Qed.

(** The "context created" callback is called once, by [use] itself. *)
Lemma created_calls_once options now req events :
  fst (use options now req) = Returned tt →
  onContextCreated_calls (deliver events (snd (use options now req))) = 1.
Proof.
  intros Hok. destruct (use_wired options now req Hok) as (Hw & Hc & _).
  destruct (deliver_wired events _ Hw) as (_ & -> & _).
  exact Hc.
Qed.

End MiddlewareFacts.

(** C2, as stated, fails: when the client disconnects before the response
    is complete, the request emits [aborted] and [close], the response
    never finishes, and the "context destroyed" callback is not called,
    although [use] itself returned normally. *)
Lemma context_destroyed_disconnect_counterexample :
  fst (Middleware.use default_options 0 sample_request) = Returned tt
  ∧ Middleware.onContextDestroyed_calls
      (Middleware.deliver disconnect_before_completion
         (snd (Middleware.use default_options 0 sample_request)))
    ≠ 1.
Proof. split; [reflexivity |]. vm_compute. discriminate. Qed.

(** The middleware keeps no one-shot flag: a second [finish] event would
    call the callback a second time. *)
Lemma context_destroyed_has_no_guard_flag :
  Middleware.onContextDestroyed_calls
    (Middleware.deliver [Middleware.res_finish; Middleware.res_finish]
       (snd (Middleware.use default_options 0 sample_request)))
  = 2.
Proof. reflexivity. Qed.

(** The callback is registered by [use] itself, after the caller's other
    callbacks have run: when one of them throws, a response that finishes
    calls it not at all. *)
Lemma context_destroyed_not_registered_on_throw :
  (∃ e, fst (Middleware.use throwing_options 0 sample_request) = Thrown e)
  ∧ Middleware.onContextDestroyed_calls
      (Middleware.deliver [Middleware.res_finish]
         (snd (Middleware.use throwing_options 0 sample_request)))
    = 0.
Proof. split; [by eexists | reflexivity]. Qed.

(** C2, amended.  For every request on which [use] returns normally (none
    of [generateTraceId], [extractUser] and [onContextCreated] throws) and
    whose response finishes, that is, emits [finish] once (normal
    completion, a handled error, or a disconnect racing a completion in
    either order), the "context destroyed" callback is called exactly
    once, whether or not cancellation is enabled and however [close] and
    [aborted] events interleave with it.  The middleware relies on the
    transport's [finish] event for this and keeps no guard of its own. *)
Theorem context_destroyed_once_per_finish
    (options : Middleware.ResolvedOptions) (now : Z)
    (req : Middleware.HttpRequest) (events : list Middleware.EventName) :
  fst (Middleware.use options now req) = Returned tt →
  count_occ Middleware.EventName_eq_dec events Middleware.res_finish = 1 →
  Middleware.onContextDestroyed_calls
    (Middleware.deliver events (snd (Middleware.use options now req)))
  = 1.
Proof.
  intros Hok Hone. by rewrite MiddlewareFacts.destroyed_calls_count.
Qed.

Lemma context_destroyed_once_per_finish_witness :
  Middleware.onContextDestroyed_calls
    (Middleware.deliver
       [Middleware.req_aborted; Middleware.req_close; Middleware.res_finish]
       (snd (Middleware.use default_options 0 sample_request)))
  = 1.
Proof.
  apply (context_destroyed_once_per_finish default_options 0 sample_request
           [Middleware.req_aborted; Middleware.req_close;
            Middleware.res_finish]);
    reflexivity.
Defined.

(** * Further properties of the code *)

(** ** The role-only and claims-only guards *)

Section SiblingGuards.

Lemma attached_user_stored (u : User) (w : World) :
  attached_user (stored u w) = Some u.
Proof.
  unfold attached_user, stored. simpl.
  destruct (ambient w) as [ctx |]; simpl; [| reflexivity].
  by rewrite with_user_get_user.
Qed.

Lemma roles_getUser_eq (w : World) :
  StruktosRolesGuard.getUser w = (Returned (attached_user w), w).
Proof.
  unfold StruktosRolesGuard.getUser, attached_user.
  by destruct (_ ≫= _).
Qed.

Lemma claims_getUser_eq (w : World) :
  StruktosClaimsGuard.getUser w = (Returned (attached_user w), w).
Proof.
  unfold StruktosClaimsGuard.getUser, attached_user.
  by destruct (_ ≫= _).
Qed.

(** The inlined role test of the role-only guard is [checkRoles]. *)
Lemma roles_guard_test (u : User) (rs : list string) :
  match user_roles u with
  | None => true
  | Some roles => negb (existsb (fun role => includes roles role) rs)
  end = negb (checkRoles u rs).
Proof.
  unfold checkRoles. destruct (user_roles u) as [[| r roles] |];
    simpl; try reflexivity.
  induction rs as [| x rs IH]; [reflexivity | exact IH].
Qed.

Lemma hasClaim_satisfies (u : User) (r : ClaimRequirement) :
  StruktosClaimsGuard.hasClaim u r = true ↔ satisfies u r.
Proof.
  unfold StruktosClaimsGuard.hasClaim, satisfies, claims_of.
  destruct (user_claims u) as [held |]; simpl.
  - rewrite existsb_exists. split.
    + intros (c & Hc & Hm). apply claim_matches in Hm. exists c. by split.
    + intros (c & Hc & Hm). exists c. split; [done |].
      by apply claim_matches.
  - split; [discriminate | by intros (c & [] & _)].
Qed.

(** The loop of the claims-only guard: it fails at the first requirement
    that is not met and leaves the state alone. *)
Lemma check_each_eq (u : User) (claims : list ClaimRequirement) (w : World) :
  StruktosClaimsGuard.check_each u claims w =
  (match find (fun r => negb (StruktosClaimsGuard.hasClaim u r)) claims with
   | Some r => Thrown (ForbiddenException (StruktosClaimsGuard.message r))
   | None => Returned tt
   end, w).
Proof.
  induction claims as [| r rest IH]; simpl; [reflexivity |].
  destruct (StruktosClaimsGuard.hasClaim u r); simpl; [exact IH | reflexivity].
Qed.

End SiblingGuards.

(** The role-only guard in closed form. *)
Lemma roles_guard_eq (context : ExecutionContext) (w : World) :
  StruktosRolesGuard.canActivate context w =
  (if roles_required (requiredRoles context)
   then
     match attached_user w with
     | None => Thrown (UnauthorizedException "Authentication required")
     | Some u =>
         if checkRoles u (default [] (requiredRoles context))
         then Returned true
         else Thrown (ForbiddenException
                ("Required roles: "
                   +:+ join ", " (default [] (requiredRoles context))))
     end
   else Returned true, w).
Proof.
  unfold StruktosRolesGuard.canActivate, requiredRoles.
  destruct (getAllAndOverride meta_roles _) as [[| r rs] |];
    [reflexivity | | reflexivity].
  cbn [roles_required length Nat.eqb Nat.ltb Nat.leb].
  change (default [] (Some (r :: rs))) with (r :: rs).
  unfold mbind, M_bind, bind. rewrite roles_getUser_eq.
  destruct (attached_user w) as [u |]; [| reflexivity].
  rewrite roles_guard_test.
  destruct (checkRoles u (r :: rs)); reflexivity.
Qed.

(** The claims-only guard: the state it leaves and when it allows. *)
Lemma claims_guard_spec (context : ExecutionContext) (w : World) :
  snd (StruktosClaimsGuard.canActivate context w) = w
  ∧ (fst (StruktosClaimsGuard.canActivate context w) = Returned true
     ↔ requiredClaims context = None
       ∨ ∃ rc u, requiredClaims context = Some rc
                 ∧ attached_user w = Some u
                 ∧ Forall (satisfies u) (requirements_of rc)).
Proof.
  unfold StruktosClaimsGuard.canActivate, requiredClaims.
  destruct (getAllAndOverride meta_claims _) as [rc |];
    [| split; [reflexivity | split; [by left | reflexivity]]].
  unfold mbind, M_bind, bind. rewrite claims_getUser_eq.
  destruct (attached_user w) as [u |]; simpl.
  2:{ split; [reflexivity |]. split; [discriminate |].
      intros [? | (? & ? & _ & ? & _)]; discriminate. }
  change (match rc with ClaimArray l => l | SingleClaim c => [c] end)
    with (requirements_of rc).
  rewrite check_each_eq.
  destruct (find _ (requirements_of rc)) as [r |] eqn:Hfind; simpl.
  - split; [reflexivity |]. split; [discriminate |].
    intros [? | (rc' & u' & [= <-] & [= <-] & Hall)]; [discriminate |].
    apply find_some in Hfind as [Hin Hneg].
    rewrite List.Forall_forall in Hall.
    apply Hall, hasClaim_satisfies in Hin. by rewrite Hin in Hneg.
  - split; [reflexivity |]. split; [| reflexivity].
    intros _. right. exists rc, u. repeat split.
    rewrite List.Forall_forall. intros r Hin.
    apply hasClaim_satisfies.
    pose proof (find_none _ _ Hfind r Hin) as Hr. simpl in Hr.
    by destruct (StruktosClaimsGuard.hasClaim u r).
Qed.

(** X1.  The role-only guard never changes the request or the context.  It
    allows exactly when no role is required (no list declared, or an empty
    one) or the attached user holds one of the required roles; it answers
    Unauthorized exactly when roles are required and no user is attached,
    in the context or on the request; and it answers Forbidden exactly
    when roles are required and the attached user holds none of them, with
    the message [Required roles: ] followed by the required roles in
    their order, separated by a comma and a space, so that every required
    role occurs in it. *)
Theorem roles_guard_decision (context : ExecutionContext) (w : World) :
  let rs := default [] (requiredRoles context) in
  let outcome := fst (StruktosRolesGuard.canActivate context w) in
  snd (StruktosRolesGuard.canActivate context w) = w
  ∧ (outcome = Returned true
     ↔ rs = [] ∨ ∃ u r, attached_user w = Some u
                         ∧ In r rs ∧ In r (roles_of u))
  ∧ (outcome = Thrown (UnauthorizedException "Authentication required")
     ↔ rs ≠ [] ∧ attached_user w = None)
  ∧ (∀ message, outcome = Thrown (ForbiddenException message) →
                message = "Required roles: " +:+ join ", " rs)
  ∧ (outcome = Thrown (ForbiddenException ("Required roles: " +:+ listed rs))
     ↔ rs ≠ [] ∧ ∃ u, attached_user w = Some u
                      ∧ ¬ ∃ r, In r rs ∧ In r (roles_of u))
  ∧ (∀ r, In r rs → occurs r ("Required roles: " +:+ listed rs)).
Proof.
  intros rs outcome. subst rs outcome. rewrite roles_guard_eq.
  rewrite <- !join_listed.
  assert (Hnames : ∀ l r,
            In r l → occurs r ("Required roles: " +:+ join ", " l))
    by (intros l r Hin; by apply roles_message_names).
  destruct (requiredRoles context) as [[| r0 rs] |];
    cbn [default from_option id fst snd].
  - repeat split; try discriminate; try (by left); try (by intros [? _]).
    intros r [].
  - split; [reflexivity |].
    destruct (attached_user w) as [u |].
    + pose proof (checkRoles_spec u (r0 :: rs)) as Hspec.
      destruct (checkRoles u (r0 :: rs)).
      * split; [| split; [| split; [discriminate | split]]].
        -- split; [| reflexivity]. intros _. right.
           destruct (proj1 Hspec eq_refl) as (r & Hr & Hin). by exists u, r.
        -- split; [discriminate | by intros [_ ?]].
        -- split; [discriminate |].
           intros [_ (u' & [= <-] & Hnone)]. exfalso. apply Hnone.
           by apply Hspec.
        -- apply Hnames.
      * split; [| split; [| split; [| split]]].
        -- split; [discriminate |].
           intros [? | (u' & r & [= <-] & Hr & Hin)]; [discriminate |].
           assert (false = true) by (apply Hspec; by exists r). discriminate.
        -- split; [discriminate | by intros [_ ?]].
        -- by intros message [= <-].
        -- split; [| reflexivity]. intros _. split; [discriminate |].
           exists u. split; [reflexivity |]. intros Hsome.
           apply Hspec in Hsome. discriminate.
        -- apply Hnames.
    + split; [| split; [| split; [discriminate | split]]].
      * split; [discriminate |].
        intros [? | (u & r & ? & _)]; discriminate.
      * split; [| reflexivity]. intros _. by split.
      * split; [discriminate |]. by intros [_ (u & ? & _)].
      * apply Hnames.
  - repeat split; try discriminate; try (by left); try (by intros [? _]).
    intros r [].
Qed.

Lemma roles_guard_decision_witness :
  fst (StruktosRolesGuard.canActivate
         {| getHandler := decorate [ModeratorOrAdmin];
            getClass := no_metadata |} (world_of john))
  = Thrown (ForbiddenException "Required roles: Admin, Moderator").
Proof.
  apply (proj1 (proj2 (proj2 (proj2 (proj2
           (roles_guard_decision
              {| getHandler := decorate [ModeratorOrAdmin];
                 getClass := no_metadata |} (world_of john))))))).
  split; [discriminate |].
  exists john. split; [reflexivity |].
  intros (r & [<- | [<- | []]] & [Hin | []]); discriminate Hin.
Defined.

(** X2.  The claims-only guard never changes the request or the context.
    It allows a route exactly when no claims are declared for it, or a
    user is attached and every declared requirement is satisfied; the
    empty requirement list is satisfied by every attached user, with or
    without claims.  It answers Unauthorized exactly when claims are
    declared and no user is attached. *)
Theorem claims_guard_allows_iff (context : ExecutionContext) (w : World) :
  let outcome := fst (StruktosClaimsGuard.canActivate context w) in
  snd (StruktosClaimsGuard.canActivate context w) = w
  ∧ (outcome = Returned true
     ↔ requiredClaims context = None
       ∨ ∃ rc u, requiredClaims context = Some rc
                 ∧ attached_user w = Some u
                 ∧ Forall (satisfies u) (requirements_of rc))
  ∧ (outcome = Thrown (UnauthorizedException "Authentication required")
     ↔ is_Some (requiredClaims context) ∧ attached_user w = None).
Proof.
  intros outcome. subst outcome.
  destruct (claims_guard_spec context w) as [Hstate Hallow].
  split; [exact Hstate |]. split; [exact Hallow |].
  unfold StruktosClaimsGuard.canActivate, requiredClaims.
  destruct (getAllAndOverride meta_claims _) as [rc |]; simpl.
  - unfold mbind, M_bind, bind. rewrite claims_getUser_eq.
    destruct (attached_user w) as [u |]; simpl.
    + change (match rc with ClaimArray l => l | SingleClaim c => [c] end)
        with (requirements_of rc).
      rewrite check_each_eq.
      destruct (find _ (requirements_of rc)); simpl;
        (split; [discriminate | by intros [_ ?]]).
    + split; [| reflexivity]. intros _. split; [by eexists | reflexivity].
  - split; [discriminate |]. by intros [[? ?] _].
Qed.

Section FirstUnmet.


End FirstUnmet.



(** X4.  On the same requirements and the same attached user, the
    claims-only guard allows exactly when [checkClaims] of the unified
    guard succeeds, with one exception: a user without any claim passes
    the claims-only guard on an empty requirement list, and fails
    [checkClaims]. *)
Theorem claims_guards_agree
    (context : ExecutionContext) (w : World) (rc : ClaimsMetadata) (u : User) :
  requiredClaims context = Some rc →
  attached_user w = Some u →
  (fst (StruktosClaimsGuard.canActivate context w) = Returned true
   ↔ checkClaims u rc = true
     ∨ (requirements_of rc = [] ∧ claims_of u = [])).
Proof.
  intros Hrc Hu.
  rewrite (proj2 (claims_guard_spec context w)), checkClaims_spec.
  rewrite Hrc, Hu. split.
  - intros [? | (rc' & u' & [= <-] & [= <-] & Hall)]; [discriminate |].
    destruct (claims_of u) as [| c held] eqn:Hheld; [| by left].
    right. split; [| reflexivity].
    destruct (requirements_of rc) as [| r l]; [reflexivity |].
    inversion Hall as [| ? ? (c & Hc & _) _]; subst.
    unfold claims_of in Hheld. unfold claims_of in Hc.
    rewrite Hheld in Hc. destruct Hc.
  - intros [[_ Hall] | [Hnil _]]; right; exists rc, u; repeat split; try done.
    rewrite Hnil. constructor.
Qed.

Lemma claims_guards_agree_witness :
  fst (StruktosClaimsGuard.canActivate
         {| getHandler := decorate [RequireClaims []];
            getClass := no_metadata |} (world_of nobody)) = Returned true
  ↔ checkClaims nobody (ClaimArray []) = true
    ∨ (requirements_of (ClaimArray []) = [] ∧ claims_of nobody = []).
Proof.
  apply (claims_guards_agree
           {| getHandler := decorate [RequireClaims []];
              getClass := no_metadata |} (world_of nobody)
           (ClaimArray []) nobody); reflexivity.
Defined.

(** ** The guards together *)

(** X5.  The guards can be stacked: on a route that is not public, whenever
    the unified guard allows a request, the role-only guard and the
    claims-only guard, run afterwards on the state it leaves, allow it as
    well. *)
Theorem stacked_guards_allow
    (guard : StruktosAuthGuard) (context : ExecutionContext) (w w' : World) :
  isPublic context = false →
  canActivate guard context w = (Returned true, w') →
  fst (StruktosRolesGuard.canActivate context w') = Returned true
  ∧ fst (StruktosClaimsGuard.canActivate context w') = Returned true.
Proof.
  intros Hpublic Hallow.
  rewrite canActivate_eq, Hpublic in Hallow.
  destruct (resolvePrincipal_returns guard w) as (user & w1 & Hr & _).
  rewrite Hr in Hallow.
  rewrite roles_guard_eq, (proj2 (claims_guard_spec context w')).
  destruct (roles_required (requiredRoles context)) eqn:Hroles;
    destruct (requiredClaims context) as [rc |] eqn:Hclaims; simpl in *.
  - destruct user as [u |]; [| discriminate].
    destruct (checkRoles u _) eqn:Hcheck; [| discriminate]. simpl in Hallow.
    destruct (checkClaims u rc) eqn:Hcc; [| discriminate].
    injection Hallow as <-. rewrite attached_user_stored, Hcheck.
    split; [reflexivity |]. right. exists rc, u. repeat split.
    by apply checkClaims_spec in Hcc as [_ ?].
  - destruct user as [u |]; [| discriminate].
    destruct (checkRoles u _) eqn:Hcheck; [| discriminate]. simpl in Hallow.
    injection Hallow as <-. rewrite attached_user_stored, Hcheck.
    split; [reflexivity | by left].
  - destruct user as [u |]; [| discriminate].
    destruct (checkClaims u rc) eqn:Hcc; [| discriminate].
    injection Hallow as <-. rewrite attached_user_stored.
    split; [reflexivity |]. right. exists rc, u. repeat split.
    by apply checkClaims_spec in Hcc as [_ ?].
  - split; [reflexivity | by left].
Qed.

Lemma stacked_guards_allow_witness :
  fst (StruktosRolesGuard.canActivate
         {| getHandler := decorate [Roles ["User"]]; getClass := no_metadata |}
         (stored john (world_of john))) = Returned true
  ∧ fst (StruktosClaimsGuard.canActivate
           {| getHandler := decorate [Roles ["User"]];
              getClass := no_metadata |}
           (stored john (world_of john))) = Returned true.
Proof.
  apply (stacked_guards_allow no_provider
           {| getHandler := decorate [Roles ["User"]];
              getClass := no_metadata |}
           (world_of john) (stored john (world_of john)));
    reflexivity.
Defined.

(** X6.  The role-only guard does not know the public marker: on a route
    declared [Public] that also carries a role requirement, a request
    without user passes the unified guard and is refused by the role-only
    guard with Unauthorized. *)
Theorem roles_guard_ignores_public
    (guard : StruktosAuthGuard) (operation group : list Decorator)
    (w : World) :
  In Public operation ∨ In Public group →
  roles_required
    (requiredRoles {| getHandler := decorate operation;
                      getClass := decorate group |}) = true →
  attached_user w = None →
  canActivate guard
    {| getHandler := decorate operation; getClass := decorate group |} w
  = (Returned true, w)
  ∧ StruktosRolesGuard.canActivate
      {| getHandler := decorate operation; getClass := decorate group |} w
    = (Thrown (UnauthorizedException "Authentication required"), w).
Proof.
  intros Hpublic Hroles Hnone. split.
  - apply canActivate_public. unfold isPublic. apply bool_decide_eq_true_2.
    rewrite getAllAndOverride_two. cbn [getHandler getClass].
    destruct Hpublic as [Hop | Hgroup].
    + by rewrite (decorate_public _ Hop).
    + rewrite (decorate_public _ Hgroup).
      by destruct (decorate_public_values operation) as [-> | ->].
  - by rewrite roles_guard_eq, Hroles, Hnone.
Qed.

Lemma roles_guard_ignores_public_witness :
  canActivate no_provider
    {| getHandler := decorate [Public];
       getClass := decorate [Roles ["Admin"]] |} anonymous_world
  = (Returned true, anonymous_world)
  ∧ StruktosRolesGuard.canActivate
      {| getHandler := decorate [Public];
         getClass := decorate [Roles ["Admin"]] |} anonymous_world
    = (Thrown (UnauthorizedException "Authentication required"),
       anonymous_world).
Proof.
  apply (roles_guard_ignores_public no_provider [Public] [Roles ["Admin"]]
           anonymous_world);
    [left; simpl; by left | reflexivity | reflexivity].
Defined.

(** ** More on the unified guard *)

Section GuardState.

Lemma resolvePrincipal_attached guard w u :
  attached_user w = Some u →
  resolvePrincipal guard w = (Returned (Some u), w).
Proof. intros Hu. by rewrite resolvePrincipal_eq, Hu. Qed.

(** The state [canActivate] leaves: the state after the principal was
    resolved, with the principal stored when there is one. *)
Lemma canActivate_state guard context w :
  snd (canActivate guard context w) =
  if isPublic context then w
  else match resolvePrincipal guard w with
       | (Returned (Some u), w1) => stored u w1
       | (_, w1) => w1
       end.
Proof.
  rewrite canActivate_eq.
  destruct (isPublic context); [reflexivity |].
  destruct (resolvePrincipal guard w) as [[[u |] | e] w1];
    [| by destruct (_ || _) | reflexivity].
  destruct (_ || _); [| reflexivity].
  destruct (_ && _); [reflexivity |].
  destruct (requiredClaims context) as [rc |]; [| reflexivity].
  by destruct (checkClaims u rc).
Qed.

End GuardState.

(** X7.  Once a request carries a principal, or on a public route, running
    the unified guard again gives the same outcome and changes nothing: the
    state the guard leaves is a fixed point, and the provider is not called
    a second time. *)
Theorem guard_rerun_is_stable
    (guard : StruktosAuthGuard) (context : ExecutionContext) (w : World) :
  let outcome := fst (canActivate guard context w) in
  let w' := snd (canActivate guard context w) in
  isPublic context = true ∨ is_Some (attached_user w') →
  canActivate guard context w' = (outcome, w').
Proof.
  intros outcome w' Hcase. subst outcome w'.
  destruct (isPublic context) eqn:Hpublic.
  { by rewrite !canActivate_public. }
  destruct Hcase as [? | Hattached]; [discriminate |].
  rewrite canActivate_state, Hpublic in Hattached.
  rewrite canActivate_state, Hpublic.
  rewrite (canActivate_eq guard context w), Hpublic.
  destruct (resolvePrincipal guard w) as [[[u |] | e] w1] eqn:Hr.
  - rewrite canActivate_eq, Hpublic.
    rewrite (resolvePrincipal_attached _ _ u (attached_user_stored u w1)).
    rewrite stored_idem.
    destruct (_ || _); [| reflexivity].
    destruct (_ && _); [reflexivity |].
    destruct (requiredClaims context) as [rc |]; [| reflexivity].
    by destruct (checkClaims u rc).
  - exfalso. rewrite resolvePrincipal_eq in Hr.
    destruct (attached_user w) as [u |] eqn:Hu; [discriminate |].
    rewrite authenticateRequest_eq in Hr.
    destruct Hattached as [u Hu1].
    assert (Hsame : attached_user w1 = attached_user w).
    { destruct (authService guard); [| by injection Hr as <-].
      destruct (_ ≫= bearer_token); [| by injection Hr as <-].
      by injection Hr as _ <-. }
    congruence.
  - exfalso. destruct (resolvePrincipal_returns guard w)
      as (? & ? & Hr' & _). congruence.
Qed.

Lemma guard_rerun_is_stable_witness :
  canActivate no_provider
    {| getHandler := decorate [AdminOnly]; getClass := no_metadata |}
    (stored john (world_of john))
  = (Thrown (ForbiddenException "Required roles: Admin"),
     stored john (world_of john)).
Proof.
  apply (guard_rerun_is_stable no_provider
           {| getHandler := decorate [AdminOnly]; getClass := no_metadata |}
           (world_of john)).
  right. by exists john.
Defined.

Section GuardFrame.

(** Resolving the principal leaves the state alone or logs one call of
    the provider. *)
Lemma resolvePrincipal_state guard w :
  ∃ user w1,
    resolvePrincipal guard w = (Returned user, w1)
    ∧ (w1 = w ∨ ∃ token, w1 = logged token w).
Proof.
  rewrite resolvePrincipal_eq.
  destruct (attached_user w) as [u |]; [by eauto |].
  rewrite authenticateRequest_eq.
  destruct (authService guard); [| by eauto].
  destruct (authorization _ ≫= bearer_token) as [token |]; [| by eauto].
  destruct (validateToken _ _); do 2 eexists;
    (split; [reflexivity | right; by exists token]).
Qed.

Lemma with_user_frame u ctx key :
  key ≠ "user" → key ≠ "userId" → key ≠ "roles" →
  ctx_get key (with_user u ctx) = ctx_get key ctx.
Proof.
  intros H1 H2 H3. unfold with_user, ctx_get, ctx_set. simpl.
  by rewrite !lookup_insert_ne.
Qed.

(** The context after [canActivate]: the one before, with the resolved
    principal written into it when there is one. *)
Lemma canActivate_ambient guard context w :
  ambient (snd (canActivate guard context w)) = ambient w
  ∨ ∃ u, ambient (snd (canActivate guard context w))
         = with_user u <$> ambient w.
Proof.
  rewrite canActivate_state.
  destruct (isPublic context); [by left |].
  destruct (resolvePrincipal_state guard w) as (user & w1 & -> & Hw1).
  assert (Ha : ambient w1 = ambient w) by (by destruct Hw1 as [-> | [? ->]]).
  destruct user as [u |]; simpl; rewrite ?Ha; [right; by exists u | by left].
Qed.

End GuardFrame.

(** X8.  What the unified guard never touches: the request headers, the
    cancellation flag of the context and every context value other than
    [user], [userId] and [roles] are as before, a context is neither
    created nor dropped, and the log of provider calls grows by at most
    one call. *)
Theorem guard_frame
    (guard : StruktosAuthGuard) (context : ExecutionContext) (w : World) :
  let w' := snd (canActivate guard context w) in
  req_headers (request w') = req_headers (request w)
  ∧ (ambient w' = None ↔ ambient w = None)
  ∧ (∀ ctx ctx',
       ambient w = Some ctx → ambient w' = Some ctx' →
       ctx_cancelled ctx' = ctx_cancelled ctx
       ∧ ∀ key, key ≠ "user" → key ≠ "userId" → key ≠ "roles" →
                ctx_get key ctx' = ctx_get key ctx)
  ∧ (validateToken_calls w' = validateToken_calls w
     ∨ ∃ token, validateToken_calls w' = validateToken_calls w ++ [token]).
Proof.
  intros w'. subst w'. rewrite canActivate_state.
  destruct (isPublic context).
  { split; [reflexivity |]. split; [reflexivity |]. split; [| by left].
    intros ctx ctx' H1 H2. rewrite H1 in H2. injection H2 as <-. by split. }
  destruct (resolvePrincipal_state guard w) as (user & w1 & -> & Hw1).
  assert (Ha : ambient w1 = ambient w) by (by destruct Hw1 as [-> | [? ->]]).
  assert (Hq : request w1 = request w) by (by destruct Hw1 as [-> | [? ->]]).
  assert (Hc : validateToken_calls w1 = validateToken_calls w
               ∨ ∃ token, validateToken_calls w1
                          = validateToken_calls w ++ [token]).
  { destruct Hw1 as [-> | [token ->]]; [by left | right; by exists token]. }
  destruct user as [u |]; simpl; rewrite ?Ha, ?Hq.
  - split; [reflexivity |]. split.
    { destruct (ambient w); simpl; split; congruence. }
    split; [| exact Hc].
    intros ctx ctx' -> [= <-]. split; [reflexivity |].
    intros key. apply with_user_frame.
  - split; [reflexivity |]. split; [reflexivity |]. split; [| exact Hc].
    intros ctx ctx' -> [= <-]. by split.
Qed.

(** X9.  A principal held by the context takes precedence: on a route that
    is not public the guard works with the context's user whatever
    [request.user] and the authorization header hold, overwrites
    [request.user] with it, and does not call the provider. *)
Theorem context_user_takes_precedence
    (guard : StruktosAuthGuard) (context : ExecutionContext) (w : World)
    (ctx : RequestContext) (u : User) :
  isPublic context = false →
  ambient w = Some ctx →
  ctx_get "user" ctx = Some (VUser u) →
  let w' := snd (canActivate guard context w) in
  req_user (request w') = Some u
  ∧ (ambient w' ≫= ctx_get "user") = Some (VUser u)
  ∧ validateToken_calls w' = validateToken_calls w
  ∧ fst (canActivate guard context w)
    = fst (canActivate guard context (stored u w)).
Proof.
  intros Hpublic Hctx Huser w'. subst w'.
  assert (Hattached : attached_user w = Some u).
  { unfold attached_user. rewrite Hctx. simpl. by rewrite Huser. }
  rewrite canActivate_state, Hpublic.
  rewrite (resolvePrincipal_attached _ _ _ Hattached). simpl.
  rewrite Hctx. simpl. rewrite with_user_get_user.
  repeat split.
  rewrite !canActivate_eq, Hpublic.
  rewrite (resolvePrincipal_attached _ _ _ Hattached).
  rewrite (resolvePrincipal_attached _ _ _ (attached_user_stored u w)).
  destruct (_ || _); [| reflexivity].
  destruct (_ && _); [reflexivity |].
  destruct (requiredClaims context) as [rc |]; [| reflexivity].
  by destruct (checkClaims u rc).
Qed.

Lemma context_user_takes_precedence_witness :
  req_user
    (request
       (snd (canActivate with_provider
               {| getHandler := no_metadata; getClass := no_metadata |}
               {| ambient := Some (with_user john empty_context);
                  request :=
                    {| req_headers :=
                         Some {[ "authorization" := "Bearer user-token" ]};
                       req_user := Some nobody |};
                  validateToken_calls := [] |})))
  = Some john.
Proof.
  apply (context_user_takes_precedence with_provider
           {| getHandler := no_metadata; getClass := no_metadata |}
           {| ambient := Some (with_user john empty_context);
              request :=
                {| req_headers :=
                     Some {[ "authorization" := "Bearer user-token" ]};
                   req_user := Some nobody |};
              validateToken_calls := [] |}
           (with_user john empty_context) john);
    reflexivity.
Defined.

(** X10.  Authentication by bearer token: when no principal is attached, a
    provider is configured, the header is [Bearer <token>] and the
    provider accepts the token, the guard calls the provider once with
    that token, stores the user it returns in the context and on the
    request, and decides as it would for a request that already carried
    that user. *)
Theorem bearer_token_authenticates
    (guard : StruktosAuthGuard) (context : ExecutionContext) (w : World)
    (service : AuthService) (header token : string) (u : User) :
  isPublic context = false →
  attached_user w = None →
  authService guard = Some service →
  authorization (request w) = Some header →
  bearer_header header token →
  validateToken service token = Returned (Some u) →
  snd (canActivate guard context w) = stored u (logged token w)
  ∧ fst (canActivate guard context w)
    = fst (canActivate guard context (stored u w)).
Proof.
  intros Hpublic Hnone Hservice Hheader Hbearer Hvalid.
  apply bearer_token_spec in Hbearer.
  assert (Hr : resolvePrincipal guard w
               = (Returned (Some u), logged token w)).
  { rewrite resolvePrincipal_eq, Hnone, authenticateRequest_eq, Hservice,
      Hheader. simpl. by rewrite Hbearer, Hvalid. }
  split.
  - by rewrite canActivate_state, Hpublic, Hr.
  - rewrite !canActivate_eq, Hpublic, Hr.
    rewrite (resolvePrincipal_attached _ _ _ (attached_user_stored u w)).
    destruct (_ || _); [| reflexivity].
    destruct (_ && _); [reflexivity |].
    destruct (requiredClaims context) as [rc |]; [| reflexivity].
    by destruct (checkClaims u rc).
Qed.

Lemma bearer_token_authenticates_witness :
  snd (canActivate with_provider
         {| getHandler := decorate [Roles ["User"]]; getClass := no_metadata |}
         (world_with_header "Bearer user-token"))
  = stored john (logged "user-token" (world_with_header "Bearer user-token"))
  ∧ fst (canActivate with_provider
           {| getHandler := decorate [Roles ["User"]];
              getClass := no_metadata |}
           (world_with_header "Bearer user-token"))
    = fst (canActivate with_provider
             {| getHandler := decorate [Roles ["User"]];
                getClass := no_metadata |}
             (stored john (world_with_header "Bearer user-token"))).
Proof.
  apply (bearer_token_authenticates with_provider
           {| getHandler := decorate [Roles ["User"]];
              getClass := no_metadata |}
           (world_with_header "Bearer user-token")
           sample_service "Bearer user-token" "user-token" john);
    try reflexivity.
  split; [reflexivity | simpl; repeat split; discriminate].
Defined.

(** X11.  A token the provider does not accept, whether it answers with no
    user or rejects, leaves the request anonymous: a route with a role or
    claim requirement answers Unauthenticated, and a route without any
    requirement is still allowed.  In both cases the provider was called
    once and nothing else changed. *)
Theorem rejected_token_is_anonymous
    (guard : StruktosAuthGuard) (context : ExecutionContext) (w : World)
    (service : AuthService) (header token : string) :
  isPublic context = false →
  attached_user w = None →
  authService guard = Some service →
  authorization (request w) = Some header →
  bearer_header header token →
  (∀ u, validateToken service token ≠ Returned (Some u)) →
  canActivate guard context w
  = (if roles_required (requiredRoles context)
        || bool_decide (is_Some (requiredClaims context))
     then Thrown (UnauthorizedException "Authentication required")
     else Returned true,
     logged token w).
Proof.
  intros Hpublic Hnone Hservice Hheader Hbearer Hinvalid.
  apply bearer_token_spec in Hbearer.
  assert (Hr : resolvePrincipal guard w = (Returned None, logged token w)).
  { rewrite resolvePrincipal_eq, Hnone, authenticateRequest_eq, Hservice,
      Hheader. simpl. rewrite Hbearer.
    destruct (validateToken service token) as [[u |] | e]; try reflexivity.
    by destruct (Hinvalid u). }
  rewrite canActivate_eq, Hpublic, Hr.
  by destruct (_ || _).
Qed.

Lemma rejected_token_is_anonymous_witness :
  canActivate with_provider
    {| getHandler := decorate [Roles ["User"]]; getClass := no_metadata |}
    (world_with_header "Bearer broken")
  = (Thrown (UnauthorizedException "Authentication required"),
     logged "broken" (world_with_header "Bearer broken")).
Proof.
  apply (rejected_token_is_anonymous with_provider
           {| getHandler := decorate [Roles ["User"]];
              getClass := no_metadata |}
           (world_with_header "Bearer broken")
           sample_service "Bearer broken" "broken");
    try reflexivity.
  - split; [reflexivity | simpl; repeat split; discriminate].
  - intros u. discriminate.
Defined.

(** X12.  When the role requirement, if any, is met and the claim check
    fails, the unified guard refuses with Forbidden, and the message lists
    every declared claim requirement, met or not, as [type:value], with
    [*] for a requirement without value, separated by commas; the
    principal has been stored by then. *)
Theorem claim_failure_lists_requirements
    (guard : StruktosAuthGuard) (context : ExecutionContext) (w w1 : World)
    (u : User) (rc : ClaimsMetadata) :
  isPublic context = false →
  requiredClaims context = Some rc →
  resolvePrincipal guard w = (Returned (Some u), w1) →
  roles_required (requiredRoles context)
    && negb (checkRoles u (default [] (requiredRoles context))) = false →
  checkClaims u rc = false →
  canActivate guard context w
  = (Thrown (ForbiddenException
       ("Required claims: "
          +:+ join ", " (map claim_str (requirements_of rc)))),
     stored u w1).
Proof.
  intros Hpublic Hrc Hu Hroles Hcheck.
  rewrite canActivate_eq, Hpublic, Hu, Hrc, Hroles, Hcheck.
  rewrite orb_true_r.
  by destruct rc.
Qed.

Lemma claim_failure_lists_requirements_witness :
  canActivate no_provider
    {| getHandler :=
         decorate [RequireClaims
            [ {| req_type := "permission";
                 req_value := Some "read:documents" |};
              {| req_type := "department"; req_value := None |} ]];
       getClass := no_metadata |} (world_of john)
  = (Thrown (ForbiddenException
       "Required claims: permission:read:documents, department:*"),
     stored john (world_of john)).
Proof.
  apply (claim_failure_lists_requirements no_provider
           {| getHandler :=
                decorate [RequireClaims
                   [ {| req_type := "permission";
                        req_value := Some "read:documents" |};
                     {| req_type := "department"; req_value := None |} ]];
              getClass := no_metadata |}
           (world_of john) (world_of john) john
           (ClaimArray
              [ {| req_type := "permission";
                   req_value := Some "read:documents" |};
                {| req_type := "department"; req_value := None |} ]));
    reflexivity.
Defined.

(** ** Stacks of decorators *)

Section DecoratorStacks.

Lemma apply_Auth_roles options target :
  meta_roles (apply_Auth options target)
  = match declares_roles (Auth options) with
    | Some roles => Some roles
    | None => meta_roles target
    end.
Proof.
  unfold apply_Auth. simpl.
  destruct (opt_roles options) as [[| r roles] |];
    destruct (opt_claim options) as [claim |];
    destruct (opt_claims options) as [[| c claims] |]; reflexivity.
Qed.

Lemma apply_Auth_claims options target :
  meta_claims (apply_Auth options target)
  = match declares_claims (Auth options) with
    | Some claims => Some claims
    | None => meta_claims target
    end.
Proof.
  unfold apply_Auth. simpl.
  destruct (opt_roles options) as [[| r roles] |];
    destruct (opt_claim options) as [claim |];
    destruct (opt_claims options) as [[| c claims] |]; reflexivity.
Qed.

Lemma apply_decorator_roles d target :
  meta_roles (apply_decorator d target)
  = match declares_roles d with
    | Some roles => Some roles
    | None => meta_roles target
    end.
Proof. destruct d; try reflexivity. apply apply_Auth_roles. Qed.

Lemma apply_decorator_claims d target :
  meta_claims (apply_decorator d target)
  = match declares_claims d with
    | Some claims => Some claims
    | None => meta_claims target
    end.
Proof. destruct d; try reflexivity. apply apply_Auth_claims. Qed.

End DecoratorStacks.

(** X13.  In a stack of decorators on one target only the topmost
    declaration of each kind counts: the role requirement is the one of
    the topmost decorator that declares roles, the claim requirement the
    one of the topmost decorator that declares claims, and the target is
    public exactly when [Public] occurs in the stack.  Declarations of the
    same kind never accumulate. *)
Theorem topmost_declaration_wins (ds : list Decorator) :
  meta_roles (decorate ds) = first_defined (map declares_roles ds)
  ∧ meta_claims (decorate ds) = first_defined (map declares_claims ds)
  ∧ (meta_public (decorate ds) = Some true ↔ In Public ds)
  ∧ (meta_public (decorate ds) = None ↔ ¬ In Public ds).
Proof.
  induction ds as [| d ds (IHr & IHc & IHp & IHn)]; simpl.
  { repeat split; try discriminate; tauto. }
  rewrite apply_decorator_roles, apply_decorator_claims,
    apply_decorator_public, IHr, IHc.
  split; [by destruct (declares_roles d) |].
  split; [by destruct (declares_claims d) |].
  destruct d; rewrite ?IHp, ?IHn; intuition (auto; congruence).
Qed.

(** X14.  Two stacked [RequireClaim] decorators do not add up: the guards
    enforce the upper one only, so a principal that satisfies the upper
    requirement passes both the unified guard and the claims-only guard
    whether or not it satisfies the lower one. *)
Theorem stacked_require_claim_enforces_upper
    (guard : StruktosAuthGuard) (w : World) (u : User)
    (type1 type2 : string) (value1 value2 : option string) :
  attached_user w = Some u →
  satisfies u {| req_type := type1; req_value := value1 |} →
  let context :=
    {| getHandler := decorate [RequireClaim type1 value1;
                               RequireClaim type2 value2];
       getClass := no_metadata |} in
  canActivate guard context w = (Returned true, stored u w)
  ∧ StruktosClaimsGuard.canActivate context w = (Returned true, w).
Proof.
  intros Hu Hsat context.
  assert (Hall : Forall (satisfies u)
                   [ {| req_type := type1; req_value := value1 |} ]).
  { by repeat constructor. }
  split.
  - rewrite canActivate_eq, (resolvePrincipal_attached _ _ _ Hu).
    cbn -[checkClaims stored].
    assert (Hcheck : checkClaims u
              (SingleClaim {| req_type := type1; req_value := value1 |})
              = true).
    { apply checkClaims_spec. split; [| exact Hall].
      destruct Hsat as (c & Hc & _). intros Hnil. rewrite Hnil in Hc.
      destruct Hc. }
    by rewrite Hcheck.
  - pose proof (claims_guard_spec context w) as [Hstate Hiff].
    destruct (StruktosClaimsGuard.canActivate context w) as [r w'] eqn:Hrun.
    simpl in Hstate, Hiff. subst w'. f_equal.
    apply Hiff. right.
    exists (SingleClaim {| req_type := type1; req_value := value1 |}), u.
    by repeat split.
Qed.

Lemma stacked_require_claim_enforces_upper_witness :
  canActivate no_provider
    {| getHandler :=
         decorate [RequireClaim "permission" (Some "read:documents");
                   RequireClaim "department" (Some "engineering")];
       getClass := no_metadata |} (world_of john)
  = (Returned true, stored john (world_of john)).
Proof.
  apply (stacked_require_claim_enforces_upper no_provider (world_of john) john
           "permission" "department" (Some "read:documents")
           (Some "engineering")).
  - reflexivity.
  - exists {| claim_type := "permission"; claim_value := "read:documents" |}.
    split; [by left |]. split; [reflexivity |]. by intros v [= <-].
Defined.

(** X15.  An empty [Roles()] on the handler cancels the role requirement
    of the controller: with no claim requirement in force, the unified
    guard and the role-only guard then allow every request on a route
    that is not public, with or without a principal. *)
Theorem empty_roles_cancel_group_requirement
    (guard : StruktosAuthGuard) (below : list Decorator) (group : Metadata)
    (w : World) :
  let context :=
    {| getHandler := decorate (Roles [] :: below); getClass := group |} in
  isPublic context = false →
  requiredClaims context = None →
  fst (canActivate guard context w) = Returned true
  ∧ fst (StruktosRolesGuard.canActivate context w) = Returned true.
Proof.
  intros context Hpublic Hclaims.
  assert (Hroles : roles_required (requiredRoles context) = false)
    by reflexivity.
  split.
  - rewrite canActivate_eq, Hpublic, Hroles, Hclaims.
    destruct (resolvePrincipal_returns guard w) as (user & w1 & -> & _).
    reflexivity.
  - by rewrite roles_guard_eq, Hroles.
Qed.

Lemma empty_roles_cancel_group_requirement_witness :
  fst (canActivate no_provider
         {| getHandler := decorate [Roles []];
            getClass := decorate [Roles ["Admin"]] |} anonymous_world)
  = Returned true.
Proof.
  apply (empty_roles_cancel_group_requirement no_provider []
           (decorate [Roles ["Admin"]]) anonymous_world);
    reflexivity.
Defined.

(** ** More on the lifecycle of one request *)

Module LifecycleFacts.
Import Middleware.

(** No listener touches the context data, the [finish] listeners, or the
    records of [next] and of the "created" callback. *)
Lemma run_listener_frame l st :
  ctx_data <$> context (run_listener l st) = ctx_data <$> context st
  ∧ on_res_finish (run_listener l st) = on_res_finish st
  ∧ onContextCreated_calls (run_listener l st) = onContextCreated_calls st
  ∧ next_calls (run_listener l st) = next_calls st
  ∧ struktosContext (run_listener l st) = struktosContext st.
Proof.
  destruct l; simpl; repeat split; try reflexivity.
  by destruct (context st).
Qed.

Lemma run_listeners_frame ls st :
  let st' := fold_left (fun st l => run_listener l st) ls st in
  ctx_data <$> context st' = ctx_data <$> context st
  ∧ on_res_finish st' = on_res_finish st
  ∧ onContextCreated_calls st' = onContextCreated_calls st
  ∧ next_calls st' = next_calls st
  ∧ struktosContext st' = struktosContext st.
Proof.
  revert st. induction ls as [| l ls IH]; intros st; simpl; [done |].
  destruct (IH (run_listener l st)) as (-> & -> & -> & -> & ->).
  apply run_listener_frame.
Qed.

Lemma deliver_frame events st :
  ctx_data <$> context (deliver events st) = ctx_data <$> context st
  ∧ on_res_finish (deliver events st) = on_res_finish st
  ∧ onContextCreated_calls (deliver events st) = onContextCreated_calls st
  ∧ next_calls (deliver events st) = next_calls st
  ∧ struktosContext (deliver events st) = struktosContext st.
Proof.
  revert st. induction events as [| e events IH]; intros st; simpl; [done |].
  fold (deliver events (emit e st)).
  destruct (IH (emit e st)) as (-> & -> & -> & -> & ->).
  apply (run_listeners_frame (listeners e st) st).
Qed.

(** A cancelled context stays cancelled. *)
Lemma run_listener_cancelled l st :
  isCancelled <$> context st = Some true →
  isCancelled <$> context (run_listener l st) = Some true.
Proof.
  destruct l; simpl; try done.
  destruct (context st); [done | discriminate].
Qed.

Lemma deliver_cancelled events st :
  isCancelled <$> context st = Some true →
  isCancelled <$> context (deliver events st) = Some true.
Proof.
  revert st. induction events as [| e events IH]; intros st H; [done |].
  simpl. fold (deliver events (emit e st)). apply IH. unfold emit.
  generalize (listeners e st). intros ls. revert st H.
  induction ls as [| l ls IHl]; intros st H; simpl; [done |].
  by apply IHl, run_listener_cancelled.
Qed.

Lemma emit_disarmed e st :
  disarmed st → disarmed (emit e st) ∧ context (emit e st) = context st.
Proof.
  intros (Hc & Ha & Hf). unfold emit, disarmed.
  destruct e; simpl; rewrite ?Hc, ?Ha; simpl; [by rewrite Hc, Ha ..|].
  destruct Hf as [Hf | Hf]; rewrite Hf; simpl; rewrite ?Hc, ?Ha, ?Hf;
    simpl; repeat split; auto.
Qed.

Lemma deliver_disarmed events st :
  disarmed st →
  disarmed (deliver events st) ∧ context (deliver events st) = context st.
Proof.
  revert st. induction events as [| e events IH]; intros st H; [done |].
  simpl. fold (deliver events (emit e st)).
  destruct (emit_disarmed e st H) as [H' <-]. by apply IH.
Qed.

Lemma emit_armed e st :
  armed st →
  if bool_decide (e = res_finish)
  then disarmed (emit e st) ∧ context (emit e st) = context st
  else armed (emit e st) ∧ context (emit e st) = ctx_cancel <$> context st.
Proof.
  intros (Hc & Ha & Hf). unfold emit, armed, disarmed.
  destruct e; simpl; rewrite ?Hc, ?Ha, ?Hf; simpl;
    rewrite ?Hc, ?Ha, ?Hf; simpl; repeat split; auto.
Qed.

(** The state in which [use] returns. *)
Lemma use_state options now req :
  fst (use options now req) = Returned tt →
  ∃ traceId user,
    generateTraceId options = Returned traceId
    ∧ extractUser options req = Returned user
    ∧ onContextCreated options (contextData traceId user now req) req
      = Returned tt
    ∧ (if enableCancellation options
       then armed (snd (use options now req))
       else disarmed (snd (use options now req)))
    ∧ context (snd (use options now req))
      = Some {| ctx_data := contextData traceId user now req;
                ctx_cancelled := false |}
    ∧ onContextCreated_calls (snd (use options now req)) = 1
    ∧ next_calls (snd (use options now req)) = 1
    ∧ struktosContext (snd (use options now req)) = Some traceId.
Proof.
  unfold use, RequestContext_run, armed, disarmed.
  destruct (generateTraceId options) as [traceId | e]; [| discriminate].
  destruct (extractUser options req) as [user | e]; [| discriminate].
  destruct (onContextCreated options _ req) as [[] | e] eqn:Hcreated;
    [| discriminate].
  intros _. exists traceId, user.
  destruct (enableCancellation options); simpl; repeat split; auto.
Qed.

(** The state in which [use] throws: which callback threw, and nothing
    registered. *)
Lemma use_thrown options now req e :
  fst (use options now req) = Thrown e →
  let st := snd (use options now req) in
  (generateTraceId options = Thrown e ∧ onContextCreated_calls st = 0
   ∨ (∃ traceId,
        generateTraceId options = Returned traceId
        ∧ extractUser options req = Thrown e)
     ∧ onContextCreated_calls st = 0
   ∨ (∃ traceId user,
        generateTraceId options = Returned traceId
        ∧ extractUser options req = Returned user
        ∧ onContextCreated options (contextData traceId user now req) req
          = Thrown e)
     ∧ onContextCreated_calls st = 1)
  ∧ on_req_close st = [] ∧ on_req_aborted st = [] ∧ on_res_finish st = []
  ∧ onContextDestroyed_calls st = 0
  ∧ next_calls st = 0
  ∧ struktosContext st = None
  ∧ isCancelled <$> context st ≠ Some true.
Proof.
  unfold use, RequestContext_run.
  destruct (generateTraceId options) as [traceId | e1].
  - destruct (extractUser options req) as [user | e2].
    + destruct (onContextCreated options _ req) as [[] | e3] eqn:Hcreated;
        [discriminate |].
      intros [= ->]. simpl. split; [| by repeat split].
      right. right. split; [| reflexivity]. by exists traceId, user.
    + intros [= ->]. simpl. split; [| by repeat split].
      right. left. split; [| reflexivity]. by exists traceId.
  - intros [= ->]. simpl. split; [| by repeat split]. by left.
Qed.

(** Without listeners no event changes anything. *)
Lemma deliver_unwired events st :
  on_req_close st = [] → on_req_aborted st = [] → on_res_finish st = [] →
  deliver events st = st.
Proof.
  intros Hc Ha Hf. induction events as [| e events IH]; [reflexivity |].
  simpl. fold (deliver events (emit e st)).
  assert (He : emit e st = st)
    by (unfold emit; destruct e; simpl; by rewrite ?Hc, ?Ha, ?Hf).
  by rewrite He.
Qed.

Lemma deliver_armed_listeners events st :
  armed st →
  on_req_close (deliver events st)
  = (if existsb (fun e => bool_decide (e = res_finish)) events
     then [] else [onClose])
  ∧ on_req_aborted (deliver events st)
    = (if existsb (fun e => bool_decide (e = res_finish)) events
       then [] else [onClose]).
Proof.
  revert st. induction events as [| e events IH]; intros st H; simpl.
  { by destruct H as (-> & -> & _). }
  fold (deliver events (emit e st)).
  pose proof (emit_armed e st H) as He.
  destruct (bool_decide (e = res_finish)); simpl.
  - destruct He as [Hd _].
    by destruct (deliver_disarmed events _ Hd) as [(-> & -> & _) _].
  - destruct He as [Ha _]. by apply IH.
Qed.

End LifecycleFacts.

(** X16.  When the context is cancelled.  When [use] has returned, the
    context is cancelled after a sequence of events exactly when
    cancellation is enabled and the first event delivered is a [close] or
    an [aborted] of the request.  The code looks at nothing else: it does
    not tell a client that went away from a request that closed for
    another reason, so where the transport emits the request's [close]
    before the response's [finish] on a request that completes normally,
    that request's context is cancelled as well.  A [close] or [aborted]
    after [finish] does not cancel, a cancelled context stays cancelled,
    and the thunk injected by [IsCancelled] reports the same.  When [use]
    has thrown, no event cancels anything. *)
Theorem cancelled_iff_request_closes_before_finish
    (options : Middleware.ResolvedOptions) (now : Z)
    (req : Middleware.HttpRequest) (events : list Middleware.EventName) :
  let st0 := snd (Middleware.use options now req) in
  let final := Middleware.context (Middleware.deliver events st0) in
  match fst (Middleware.use options now req) with
  | Returned _ =>
      let expected :=
        Middleware.enableCancellation options
        && match events with
           | [] => false
           | e :: _ => negb (bool_decide (e = Middleware.res_finish))
           end in
      isCancelled <$> final = Some expected
      ∧ ∀ ctx, final = Some ctx →
               ContextDecorators.IsCancelled (Middleware.context st0)
                 (fun _ => ctx) = expected
  | Thrown _ => isCancelled <$> final ≠ Some true
  end.
Proof.
  intros st0 final. subst st0 final.
  destruct (fst (Middleware.use options now req)) as [[] | e] eqn:Hok.
  2: { destruct (LifecycleFacts.use_thrown options now req e Hok)
         as (_ & Hc & Ha & Hf & _ & _ & _ & Hnot).
       by rewrite LifecycleFacts.deliver_unwired. }
  intros expected.
  destruct (LifecycleFacts.use_state options now req Hok)
    as (traceId & user & _ & _ & _ & Hmode & Hctx & _).
  assert (Hmain :
    isCancelled <$> Middleware.context
                      (Middleware.deliver events
                         (snd (Middleware.use options now req)))
    = Some expected).
  { subst expected.
    destruct (Middleware.enableCancellation options); simpl.
    - destruct events as [| e events];
        [change (Middleware.deliver [] ?st) with st; by rewrite Hctx |].
      change (Middleware.deliver (e :: events) ?st)
        with (Middleware.deliver events (Middleware.emit e st)).
      pose proof (LifecycleFacts.emit_armed e _ Hmode) as He.
      destruct (bool_decide (e = Middleware.res_finish)); simpl.
      + destruct He as [Hd Hsame].
        destruct (LifecycleFacts.deliver_disarmed events _ Hd) as [_ ->].
        by rewrite Hsame, Hctx.
      + destruct He as [_ Hcancel].
        apply LifecycleFacts.deliver_cancelled.
        by rewrite Hcancel, Hctx.
    - destruct (LifecycleFacts.deliver_disarmed events _ Hmode) as [_ ->].
      by rewrite Hctx. }
  split; [exact Hmain |].
  intros ctx Hfinal. rewrite Hfinal in Hmain. simpl in Hmain.
  injection Hmain as <-.
  by rewrite Hctx.
Qed.

Lemma cancelled_iff_request_closes_before_finish_witness :
  isCancelled <$>
    Middleware.context
      (Middleware.deliver [Middleware.req_close; Middleware.res_finish]
         (snd (Middleware.use default_options 0 sample_request)))
  = Some true.
Proof.
  exact (proj1 (cancelled_iff_request_closes_before_finish default_options 0
                  sample_request
                  [Middleware.req_close; Middleware.res_finish])).
Defined.

(** X17.  Listener clean-up.  When [use] has returned with cancellation
    enabled, the request carries exactly one cancel listener for [close]
    and one for [aborted] until the response finishes, however many such
    events arrive, and none from the first [finish] on; with cancellation
    disabled it never carries any, and neither does it when [use] has
    thrown. *)
Theorem cancel_listeners_removed_on_finish
    (options : Middleware.ResolvedOptions) (now : Z)
    (req : Middleware.HttpRequest) (events : list Middleware.EventName) :
  let st := Middleware.deliver events (snd (Middleware.use options now req)) in
  let expected :=
    match fst (Middleware.use options now req) with
    | Returned _ =>
        if Middleware.enableCancellation options
           && negb (existsb (fun e => bool_decide (e = Middleware.res_finish))
                      events)
        then [Middleware.onClose] else []
    | Thrown _ => []
    end in
  Middleware.on_req_close st = expected
  ∧ Middleware.on_req_aborted st = expected.
Proof.
  intros st expected. subst st expected.
  destruct (fst (Middleware.use options now req)) as [[] | e] eqn:Hok.
  2: { destruct (LifecycleFacts.use_thrown options now req e Hok)
         as (_ & Hc & Ha & Hf & _).
       by rewrite LifecycleFacts.deliver_unwired. }
  destruct (LifecycleFacts.use_state options now req Hok)
    as (traceId & user & _ & _ & _ & Hmode & _).
  destruct (Middleware.enableCancellation options); simpl.
  - destruct (LifecycleFacts.deliver_armed_listeners events _ Hmode)
      as [-> ->].
    by destruct (existsb _ events).
  - by destruct (LifecycleFacts.deliver_disarmed events _ Hmode)
      as [(-> & -> & _) _].
Qed.

Lemma cancel_listeners_removed_on_finish_witness :
  Middleware.on_req_close
    (Middleware.deliver [Middleware.req_close; Middleware.res_finish]
       (snd (Middleware.use default_options 0 sample_request))) = []
  ∧ Middleware.on_req_close
      (Middleware.deliver [Middleware.req_close; Middleware.req_close]
         (snd (Middleware.use default_options 0 sample_request)))
    = [Middleware.onClose]
  ∧ Middleware.on_req_close
      (Middleware.deliver [Middleware.res_finish]
         (snd (Middleware.use throwing_options 0 sample_request))) = [].
Proof.
  split; [| split].
  - exact (proj1 (cancel_listeners_removed_on_finish default_options 0
                    sample_request
                    [Middleware.req_close; Middleware.res_finish])).
  - exact (proj1 (cancel_listeners_removed_on_finish default_options 0
                    sample_request
                    [Middleware.req_close; Middleware.req_close])).
  - exact (proj1 (cancel_listeners_removed_on_finish throwing_options 0
                    sample_request [Middleware.res_finish])).
Defined.

(** X18.  The two ways [use] ends.  It returns exactly when none of
    [generateTraceId], [extractUser] and [onContextCreated] throws; it has
    then called the "context created" callback once and [next] once and
    has attached the trace identifier to the request, and no event calls
    either of them again.  Otherwise it throws the exception of the first
    of the three that throws; [next] has then not been called, no trace
    identifier is attached, no listener is registered on the request or
    on the response, so the "context destroyed" callback is never called,
    and the "context created" callback has been called once when it is
    the one that threw and not at all otherwise. *)
Theorem created_and_next_once
    (options : Middleware.ResolvedOptions) (now : Z)
    (req : Middleware.HttpRequest) (events : list Middleware.EventName) :
  let st := Middleware.deliver events (snd (Middleware.use options now req)) in
  match fst (Middleware.use options now req) with
  | Returned _ =>
      ∃ traceId user,
        Middleware.generateTraceId options = Returned traceId
        ∧ Middleware.extractUser options req = Returned user
        ∧ Middleware.onContextCreated options
            (Middleware.contextData traceId user now req) req = Returned tt
        ∧ Middleware.onContextCreated_calls st = 1
        ∧ Middleware.next_calls st = 1
        ∧ Middleware.struktosContext st = Some traceId
  | Thrown e =>
      (Middleware.generateTraceId options = Thrown e
       ∧ Middleware.onContextCreated_calls st = 0
       ∨ (∃ traceId,
            Middleware.generateTraceId options = Returned traceId
            ∧ Middleware.extractUser options req = Thrown e)
         ∧ Middleware.onContextCreated_calls st = 0
       ∨ (∃ traceId user,
            Middleware.generateTraceId options = Returned traceId
            ∧ Middleware.extractUser options req = Returned user
            ∧ Middleware.onContextCreated options
                (Middleware.contextData traceId user now req) req = Thrown e)
         ∧ Middleware.onContextCreated_calls st = 1)
      ∧ Middleware.next_calls st = 0
      ∧ Middleware.struktosContext st = None
      ∧ Middleware.onContextDestroyed_calls st = 0
      ∧ Middleware.on_req_close st = []
      ∧ Middleware.on_req_aborted st = []
      ∧ Middleware.on_res_finish st = []
  end.
Proof.
  intros st. subst st.
  destruct (fst (Middleware.use options now req)) as [[] | e] eqn:Hok.
  - destruct (LifecycleFacts.deliver_frame events
                (snd (Middleware.use options now req)))
      as (_ & _ & -> & -> & ->).
    destruct (LifecycleFacts.use_state options now req Hok)
      as (traceId & user & Hg & Hu & Hc & _ & _ & -> & -> & ->).
    by exists traceId, user.
  - destruct (LifecycleFacts.use_thrown options now req e Hok)
      as (Hwhich & Hc & Ha & Hf & Hd & Hn & Hs & _).
    rewrite LifecycleFacts.deliver_unwired by assumption.
    by repeat split.
Qed.

Lemma created_and_next_once_witness :
  (∃ traceId user,
     Middleware.generateTraceId default_options = Returned traceId
     ∧ Middleware.extractUser default_options sample_request = Returned user
     ∧ Middleware.onContextCreated default_options
         (Middleware.contextData traceId user 0 sample_request)
         sample_request = Returned tt
     ∧ Middleware.onContextCreated_calls
         (Middleware.deliver [Middleware.res_finish]
            (snd (Middleware.use default_options 0 sample_request))) = 1
     ∧ Middleware.next_calls
         (Middleware.deliver [Middleware.res_finish]
            (snd (Middleware.use default_options 0 sample_request))) = 1
     ∧ Middleware.struktosContext
         (Middleware.deliver [Middleware.res_finish]
            (snd (Middleware.use default_options 0 sample_request)))
       = Some traceId)
  ∧ Middleware.next_calls
      (Middleware.deliver [Middleware.res_finish]
         (snd (Middleware.use throwing_options 0 sample_request))) = 0.
Proof.
  split.
  - exact (created_and_next_once default_options 0 sample_request
             [Middleware.res_finish]).
  - exact (proj1 (proj2 (created_and_next_once throwing_options 0
                           sample_request [Middleware.res_finish]))).
Defined.

(** X19.  The "context destroyed" callback is driven by the response's
    [finish] event alone: when [use] has returned, after any sequence of
    events the callback has been called once for each [finish] delivered,
    and a [close] or [aborted] of the request never calls it; when [use]
    has thrown, the callback is never called. *)
Theorem context_destroyed_counts_finish
    (options : Middleware.ResolvedOptions) (now : Z)
    (req : Middleware.HttpRequest) (events : list Middleware.EventName) :
  Middleware.onContextDestroyed_calls
    (Middleware.deliver events (snd (Middleware.use options now req)))
  = match fst (Middleware.use options now req) with
    | Returned _ =>
        length (List.filter
                  (fun e => bool_decide (e = Middleware.res_finish)) events)
    | Thrown _ => 0
    end.
Proof.
  destruct (fst (Middleware.use options now req)) as [[] | e] eqn:Hok.
  2: { destruct (LifecycleFacts.use_thrown options now req e Hok)
         as (_ & Hc & Ha & Hf & Hd & _).
       by rewrite LifecycleFacts.deliver_unwired. }
  rewrite MiddlewareFacts.destroyed_calls_count by exact Hok.
  induction events as [| e events IH]; simpl; [reflexivity |].
  rewrite IH.
  destruct (Middleware.EventName_eq_dec e Middleware.res_finish) as [-> | Hne].
  - by rewrite bool_decide_eq_true_2.
  - by rewrite bool_decide_eq_false_2.
Qed.

Lemma context_destroyed_counts_finish_witness :
  Middleware.onContextDestroyed_calls
    (Middleware.deliver
       [Middleware.req_close; Middleware.res_finish; Middleware.req_aborted]
       (snd (Middleware.use default_options 0 sample_request))) = 1
  ∧ Middleware.onContextDestroyed_calls
      (Middleware.deliver [Middleware.res_finish]
         (snd (Middleware.use throwing_options 0 sample_request))) = 0.
Proof.
  split.
  - exact (context_destroyed_counts_finish default_options 0 sample_request
             [Middleware.req_close; Middleware.res_finish;
              Middleware.req_aborted]).
  - exact (context_destroyed_counts_finish throwing_options 0 sample_request
             [Middleware.res_finish]).
Defined.

(** ** Reading the context back *)

Section ReadBack.
Import Middleware.

(** The values of the context in which [use] has returned, after any
    sequence of events. *)
Lemma use_context_values options now req events traceId user :
  fst (use options now req) = Returned tt →
  generateTraceId options = Returned traceId →
  extractUser options req = Returned user →
  ∃ ctx,
    context (deliver events (snd (use options now req))) = Some ctx
    ∧ ctx_get "traceId" ctx = Some (VString traceId)
    ∧ ctx_get "timestamp" ctx = Some (VNumber now)
    ∧ ctx_get "requestId" ctx
      = Some (VString (default traceId (http_id req)))
    ∧ ctx_get "method" ctx = Some (VString (http_method req))
    ∧ ctx_get "user" ctx = VUser <$> user
    ∧ ctx_get "userId" ctx = VString <$> (user_id <$> user)
    ∧ ctx_get "roles" ctx = None.
Proof.
  intros Hok Hg Hu.
  destruct (LifecycleFacts.deliver_frame events (snd (use options now req)))
    as (Hdata & _).
  destruct (LifecycleFacts.use_state options now req Hok)
    as (traceId' & user' & Hg' & Hu' & _ & _ & Hctx & _).
  rewrite Hg in Hg'. injection Hg' as <-.
  rewrite Hu in Hu'. injection Hu' as <-.
  rewrite Hctx in Hdata. simpl in Hdata.
  destruct (context (deliver events _)) as [ctx |]; [| discriminate].
  injection Hdata as Hdata.
  exists ctx. split; [reflexivity |].
  unfold ctx_get. rewrite Hdata. unfold contextData, insert_optional.
  destruct user as [u |];
    destruct (user_agent req);
    destruct (or_else (http_ip req) _);
    destruct (or_else (originalUrl req) _);
    simpl; simplify_map_eq; done.
Qed.

End ReadBack.

(** X20.  What the middleware puts into the context, the decorators read
    back.  When [use] has returned, with the trace identifier and the user
    its callbacks gave, then after any sequence of [close], [aborted] and
    [finish] events (no listener writes context data) the decorators
    inject the trace identifier, the start time, the request identifier
    (the request's own, else the trace identifier), the method, and the
    user and user identifier exactly when [extractUser] found a user; the
    middleware never sets [roles].  Code that writes to the context
    changes what is read: the unified guard, run in this context, may
    write [user], [userId] and [roles], and the trace identifier, the
    start time, the request identifier and the method read back unchanged
    after it. *)
Theorem middleware_context_read_back
    (options : Middleware.ResolvedOptions) (now : Z)
    (req : Middleware.HttpRequest) (events : list Middleware.EventName)
    (traceId : string) (user : option User) :
  fst (Middleware.use options now req) = Returned tt →
  Middleware.generateTraceId options = Returned traceId →
  Middleware.extractUser options req = Returned user →
  let current :=
    Middleware.context
      (Middleware.deliver events (snd (Middleware.use options now req))) in
  let requestId :=
    ContextDecorators.FieldValue
      (VString (default traceId (Middleware.http_id req))) in
  let method :=
    ContextDecorators.FieldValue (VString (Middleware.http_method req)) in
  (ContextDecorators.TraceId current = Some traceId
   ∧ ContextDecorators.RequestTimestamp current = Some now
   ∧ ContextDecorators.UserId current = user_id <$> user
   ∧ ContextDecorators.CurrentUser None current
     = ContextDecorators.WholeUser <$> user
   ∧ ContextDecorators.Ctx (Some "requestId") current = Some requestId
   ∧ ContextDecorators.Ctx (Some "method") current = Some method
   ∧ ContextDecorators.Ctx (Some "roles") current = None)
  ∧ ∀ (guard : StruktosAuthGuard) (context : ExecutionContext) (w : World),
      ambient w = current →
      let after := ambient (snd (canActivate guard context w)) in
      ContextDecorators.TraceId after = Some traceId
      ∧ ContextDecorators.RequestTimestamp after = Some now
      ∧ ContextDecorators.Ctx (Some "requestId") after = Some requestId
      ∧ ContextDecorators.Ctx (Some "method") after = Some method.
Proof.
  intros Hok Hg Hu current requestId method. subst current requestId method.
  destruct (use_context_values options now req events traceId user Hok Hg Hu)
    as (ctx & -> & Htrace & Htime & Hid & Hmethod & Huser & Huid & Hroles).
  unfold ContextDecorators.TraceId, ContextDecorators.RequestTimestamp,
    ContextDecorators.UserId, ContextDecorators.CurrentUser,
    ContextDecorators.Ctx.
  split.
  - simpl. rewrite Htrace, Htime, Hid, Hmethod, Huser, Huid, Hroles.
    by destruct user.
  - intros guard context w Hw.
    destruct (canActivate_ambient guard context w) as [-> | [u ->]];
      rewrite Hw; simpl; rewrite ?with_user_frame by done;
      by rewrite Htrace, Htime, Hid, Hmethod.
Qed.

Lemma middleware_context_read_back_witness :
  ContextDecorators.TraceId
    (Middleware.context
       (Middleware.deliver [Middleware.req_close; Middleware.res_finish]
          (snd (Middleware.use extracting_options 1700000000000
                  sample_request))))
  = Some "trace-0"
  ∧ ContextDecorators.UserId
      (Middleware.context
         (Middleware.deliver [Middleware.req_close; Middleware.res_finish]
            (snd (Middleware.use extracting_options 1700000000000
                    sample_request))))
    = Some "user-2".
Proof.
  pose proof (middleware_context_read_back extracting_options 1700000000000
                sample_request [Middleware.req_close; Middleware.res_finish]
                "trace-0" (Some john) eq_refl eq_refl eq_refl) as H.
  split; [exact (proj1 (proj1 H)) | exact (proj1 (proj2 (proj2 (proj1 H))))].
Defined.

(** X21.  What the unified guard stores, the decorators read back: on a
    route that is not public and inside a scope, once the guard has
    resolved a principal, [CurrentUser()] injects that principal,
    [CurrentUser('id')] its identifier, the same that [UserId()] injects,
    [CurrentUser('roles')] its roles, nothing when it has none, and the
    context's [roles] are the principal's roles, the empty list when it
    has none. *)
Theorem guard_user_read_back
    (guard : StruktosAuthGuard) (context : ExecutionContext) (w w1 : World)
    (ctx : RequestContext) (u : User) :
  isPublic context = false →
  ambient w = Some ctx →
  resolvePrincipal guard w = (Returned (Some u), w1) →
  let current := ambient (snd (canActivate guard context w)) in
  ContextDecorators.CurrentUser None current
    = Some (ContextDecorators.WholeUser u)
  ∧ ContextDecorators.CurrentUser (Some "id") current
    = Some (ContextDecorators.UserField (VString (user_id u)))
  ∧ ContextDecorators.UserId current = Some (user_id u)
  ∧ ContextDecorators.CurrentUser (Some "roles") current
    = ContextDecorators.UserField <$> (VStrings <$> user_roles u)
  ∧ ContextDecorators.Ctx (Some "roles") current
    = Some (ContextDecorators.FieldValue (VStrings (roles_of u))).
Proof.
  intros Hpublic Hctx Hu current. subst current.
  rewrite canActivate_state, Hpublic, Hu.
  destruct (resolvePrincipal_returns guard w) as (? & ? & Hr & Ha & _).
  rewrite Hu in Hr. injection Hr as <- <-.
  simpl. rewrite Ha, Hctx. simpl.
  unfold ContextDecorators.CurrentUser, ContextDecorators.UserId,
    ContextDecorators.Ctx.
  simpl.
  rewrite with_user_get_user, with_user_get_userId, with_user_get_roles.
  simpl. repeat split.
Qed.

Lemma guard_user_read_back_witness :
  ContextDecorators.CurrentUser (Some "id")
    (ambient (snd (canActivate no_provider
                     {| getHandler := decorate [Roles ["User"]];
                        getClass := no_metadata |} (world_of john))))
  = Some (ContextDecorators.UserField (VString "user-2")).
Proof.
  apply (guard_user_read_back no_provider
           {| getHandler := decorate [Roles ["User"]];
              getClass := no_metadata |}
           (world_of john) (world_of john) empty_context john);
    reflexivity.
Defined.

(** ** The interceptors *)

Module InterceptorFacts.
Import Interceptors.

Lemma context_intercept_eq {A E} logger current now request
    (handle : Observable A E) (eff : Effects E) :
  StruktosContextInterceptor.intercept logger current now request handle eff
  = subscribe
      (context_operators logger (trace_id current) (start_time current now)
         request)
      handle (context_started logger (trace_id current) request eff).
Proof. reflexivity. Qed.


(** Operators that hand every notification on unchanged leave the
    subscriber with the stream itself. *)
Lemma subscribe_transparent {A E St}
    (ops : Z * Notification A E → St → (Z * Notification A E) * St)
    (source : Observable A E) (st : St) :
  (∀ n st, fst (ops n st) = n) →
  fst (subscribe ops source st) = delivered source.
Proof.
  intros Hops. revert st.
  induction source as [| [now n] rest IH]; intros st; simpl; [reflexivity |].
  specialize (Hops (now, n) st).
  destruct (ops (now, n) st) as [n' st']. simpl in Hops. subst n'.
  destruct n; simpl; try reflexivity.
  specialize (IH st'). destruct (subscribe ops rest st'). simpl in *.
  by rewrite IH.
Qed.

Lemma context_operators_transparent {A E} logger traceId startTime request
    (n : Z * Notification A E) (st : Effects E) :
  fst (context_operators logger traceId startTime request n st) = n.
Proof. by destruct n as [now []]. Qed.

(** The effects of the context interceptor's operators on the three
    things properties are stated about. *)
Lemma context_subscribe_effects {A E} logger traceId startTime request
    (source : Observable A E) (eff : Effects E) :
  let eff' :=
    snd (subscribe (context_operators logger traceId startTime request)
           source eff) in
  statusCode (response eff') = statusCode (response eff)
  ∧ (∀ name, name ≠ "X-Response-Time" →
             res_headers (response eff') !! name
             = res_headers (response eff) !! name)
  ∧ res_headers (response eff') !! "X-Response-Time"
    = match last_value_time source with
      | Some now => Some (ms (now - startTime))
      | None => res_headers (response eff) !! "X-Response-Time"
      end
  ∧ ∃ entries,
      logged_entries eff' = logged_entries eff ++ entries
      ∧ length entries
        = if logger
          then values_delivered source + (if fails source then 1 else 0)
          else 0.
Proof.
  revert eff. induction source as [| [now n] rest IH]; intros eff; simpl.
  { (split; [reflexivity |]); (split; [by intros |]);
      (split; [reflexivity |]).
    exists []. rewrite app_nil_r. by destruct logger. }
  destruct n as [value | err |]; simpl.
  - match goal with
    | |- context [subscribe ?ops rest ?e] =>
        specialize (IH e); destruct (subscribe ops rest e) as [out eff'']
    end.
    simpl in *. destruct IH as (Hs & Hh & Ht & entries & Hl & Hn).
    split; [by rewrite Hs; destruct logger |].
    split.
    { intros name Hname. rewrite (Hh name Hname).
      destruct logger; simpl; by rewrite lookup_insert_ne. }
    split.
    { rewrite Ht. destruct (last_value_time rest); [reflexivity |].
      destruct logger; simpl; by rewrite lookup_insert_eq. }
    destruct logger; simpl in *.
    + eexists (_ :: entries). rewrite Hl, <- app_assoc. simpl.
      split; [reflexivity |]. by rewrite Hn.
    + exists entries. by split.
  - destruct logger; simpl;
      (split; [reflexivity |]); (split; [by intros |]);
      (split; [reflexivity |]).
    + eexists. split; reflexivity.
    + exists []. by rewrite app_nil_r.
  - (split; [reflexivity |]); (split; [by intros |]);
      (split; [reflexivity |]).
    exists []. rewrite app_nil_r. by destruct logger.
Qed.



End InterceptorFacts.

(** X22.  The interceptors are transparent for the caller: the context,
    response and timing interceptors hand on every value of the handler
    unchanged and in order, and an error of the handler comes out as the
    same error; none of them swallows, replaces or adds a notification. *)
Theorem interceptors_are_transparent {A E : Type}
    (logger : bool) (current : option RequestContext) (now : Z)
    (request : Interceptors.HttpCall)
    (handle : Interceptors.Observable A E) (eff : Interceptors.Effects E) :
  fst (Interceptors.StruktosContextInterceptor.intercept
         logger current now request handle eff) = delivered handle
  ∧ fst (Interceptors.StruktosResponseInterceptor.intercept handle eff)
    = delivered handle
  ∧ fst (Interceptors.StruktosTimingInterceptor.intercept now handle eff)
    = delivered handle.
Proof.
  split; [| split].
  - rewrite InterceptorFacts.context_intercept_eq.
    apply InterceptorFacts.subscribe_transparent.
    apply InterceptorFacts.context_operators_transparent.
  - by apply InterceptorFacts.subscribe_transparent.
  - by apply InterceptorFacts.subscribe_transparent.
Qed.


(** X24.  What the context interceptor logs: nothing without a logger; with
    one, first a debug entry "Request started", then one entry for each
    value the handler delivers and one more when the handler fails, and
    entries already in the log are kept. *)
Theorem context_interceptor_logging {A E : Type}
    (logger : bool) (current : option RequestContext) (now : Z)
    (request : Interceptors.HttpCall)
    (handle : Interceptors.Observable A E) (eff : Interceptors.Effects E) :
  let eff' :=
    snd (Interceptors.StruktosContextInterceptor.intercept
           logger current now request handle eff) in
  if logger
  then ∃ started entries,
         Interceptors.logged_entries eff'
         = Interceptors.logged_entries eff ++ started :: entries
         ∧ Interceptors.log_level started = Interceptors.debug
         ∧ Interceptors.log_message started = "Request started"
         ∧ length entries
           = values_delivered handle + (if fails handle then 1 else 0)
  else Interceptors.logged_entries eff' = Interceptors.logged_entries eff.
Proof.
  intros eff'. subst eff'.
  rewrite InterceptorFacts.context_intercept_eq.
  destruct (InterceptorFacts.context_subscribe_effects logger
              (trace_id current) (start_time current now) request handle
              (context_started logger (trace_id current) request eff))
    as (_ & _ & _ & entries & Hl & Hn).
  rewrite Hl. unfold context_started.
  destruct logger, (truthy_string (trace_id current)); simpl.
  - eexists _, entries. rewrite <- app_assoc. by repeat split.
  - eexists _, entries. rewrite <- app_assoc. by repeat split.
  - destruct entries; [| discriminate]. by rewrite app_nil_r.
  - destruct entries; [| discriminate]. by rewrite app_nil_r.
Qed.


(** X26.  The transport data in the context, when [use] has returned:
    [url] is the request's original URL when it is set and not empty and
    its URL otherwise, [ip] is the request's address when set and not
    empty and the connection's remote address otherwise (absent when
    neither is there), and [userAgent] is the header of that name when the
    request has one. *)
Theorem middleware_transport_fallbacks
    (options : Middleware.ResolvedOptions) (now : Z)
    (req : Middleware.HttpRequest) (events : list Middleware.EventName) :
  fst (Middleware.use options now req) = Returned tt →
  let current :=
    Middleware.context
      (Middleware.deliver events (snd (Middleware.use options now req))) in
  ContextDecorators.Ctx (Some "url") current
    = Some (ContextDecorators.FieldValue
              (VString
                 (match Middleware.originalUrl req with
                  | Some original =>
                      if String.eqb original "" then Middleware.http_url req
                      else original
                  | None => Middleware.http_url req
                  end)))
  ∧ ContextDecorators.Ctx (Some "ip") current
    = ContextDecorators.FieldValue <$>
        (VString <$>
           match Middleware.http_ip req with
           | Some ip =>
               if String.eqb ip "" then Middleware.remoteAddress req
               else Some ip
           | None => Middleware.remoteAddress req
           end)
  ∧ ContextDecorators.Ctx (Some "userAgent") current
    = ContextDecorators.FieldValue <$>
        (VString <$> Middleware.user_agent req).
Proof.
  intros Hok current. subst current.
  destruct (LifecycleFacts.deliver_frame events
              (snd (Middleware.use options now req))) as (Hdata & _).
  destruct (LifecycleFacts.use_state options now req Hok)
    as (traceId & user & _ & _ & _ & _ & Hctx & _).
  rewrite Hctx in Hdata. simpl in Hdata.
  destruct (Middleware.context (Middleware.deliver events _))
    as [ctx |]; [| discriminate].
  injection Hdata as Hdata.
  unfold ContextDecorators.Ctx, ctx_get. simpl. rewrite Hdata.
  unfold Middleware.contextData, Middleware.insert_optional,
    Middleware.or_else.
  destruct user as [u |];
    destruct (Middleware.user_agent req);
    destruct (Middleware.http_ip req) as [ip |];
    destruct (Middleware.remoteAddress req);
    destruct (Middleware.originalUrl req) as [original |];
    simpl;
    try destruct (String.eqb ip ""); try destruct (String.eqb original "");
    simpl; simplify_map_eq; done.
Qed.

Lemma middleware_transport_fallbacks_witness :
  ContextDecorators.Ctx (Some "url")
    (Middleware.context
       (Middleware.deliver [Middleware.res_finish]
          (snd (Middleware.use default_options 0 sample_request))))
  = Some (ContextDecorators.FieldValue (VString "/users"))
  ∧ ContextDecorators.Ctx (Some "ip")
      (Middleware.context
         (Middleware.deliver [Middleware.res_finish]
            (snd (Middleware.use default_options 0 sample_request))))
    = Some (ContextDecorators.FieldValue (VString "127.0.0.1")).
Proof.
  pose proof (middleware_transport_fallbacks default_options 0 sample_request
                [Middleware.res_finish] eq_refl) as H.
  split; [exact (proj1 H) | exact (proj1 (proj2 H))].
Defined.

(** X27.  Which registrations are self-contained, every exported token
    being registered by a provider of the same module: the core module's
    [forRoot] and [forFeature] and the auth module's [forRootAsync]
    always; the core module's [forRootAsync] exactly when a factory is
    given; the auth module's [forRoot] exactly when an auth service is
    given; the logging module's [forRoot] exactly when a logger is given.
    Otherwise [STRUKTOS_OPTIONS], [AUTH_SERVICE] or [STRUKTOS_LOGGER] is
    exported without a provider. *)
Theorem module_exports_provided
    (isGlobal useGlobalGuard useGlobalInterceptor : option bool)
    (useFactory authService logger : bool)
    (inject imports : option (list string)) :
  exports_provided (Modules.StruktosCoreModule.forRoot isGlobal) = true
  ∧ exports_provided Modules.StruktosCoreModule.forFeature = true
  ∧ exports_provided
      (Modules.StruktosAuthModule.forRootAsync imports inject isGlobal) = true
  ∧ exports_provided
      (Modules.StruktosCoreModule.forRootAsync isGlobal useFactory inject
         imports) = useFactory
  ∧ exports_provided
      (Modules.StruktosAuthModule.forRoot authService useGlobalGuard isGlobal)
    = authService
  ∧ exports_provided
      (Modules.StruktosLoggingModule.forRoot logger useGlobalInterceptor
         isGlobal) = logger.
Proof.
  repeat split.
  - by destruct useFactory.
  - destruct authService, useGlobalGuard as [[] |]; reflexivity.
  - destruct logger, useGlobalInterceptor as [[] |]; reflexivity.
Qed.
